(** * nixserve build server: status reconciliation, trigger coordination,
      log retrieval and health

    A shallow embedding of [src/server/build-server.py].  The service shells
    out to [systemctl] and [tail] and reads files below [DATA_DIR]; the host
    it talks to is an explicit record, every handler is a computation in a
    small state-and-exception monad over that record, and every subprocess a
    handler runs is appended to the host's invocation log.

    Strings are byte strings: a text is held as its UTF-8 encoding.  What
    [systemctl] prints is taken to be text; what [tail] prints is a piece of
    a log file, any bytes at all, and decoding it can fail.  Whitespace is
    the ASCII whitespace of [str.isspace], which is all the whitespace there
    is in ASCII text; the statements that depend on how words are split or
    stripped are made for ASCII text.  The [logger] calls, the HTML page and
    [/info] are left out; [systemctl] and [tail] are taken to be installed,
    and [exists()] to answer. *)

From Stdlib Require Import String Ascii List ZArith Bool Lia Sorted.
Import ListNotations.
Local Open Scope string_scope.
Local Open Scope list_scope.

(** ** Python string primitives used by the service *)

Module Py.

Definition LF : ascii := "010"%char.
Definition CR : ascii := "013"%char.
Definition nl : string := String LF EmptyString.

(** [str.isspace] on the ASCII range: TAB, LF, VT, FF, CR, FS, GS, RS, US
    and the space.  Python counts some characters outside ASCII as
    whitespace too (U+0085, U+00A0, U+2028 and others); on ASCII text, the
    text the statements about words and stripping are made for, these do not
    occur. *)
Definition isspace (c : ascii) : bool :=
  let n := nat_of_ascii c in
  ((9 <=? n) && (n <=? 13) || (28 <=? n) && (n <=? 32))%nat.

(** [s.split(sep)] for a one-character separator: never the empty list. *)
Fixpoint split (sep : ascii) (s : string) : list string :=
  match s with
  | EmptyString => [EmptyString]
  | String c rest =>
      if Ascii.eqb c sep then EmptyString :: split sep rest
      else match split sep rest with
           | piece :: pieces => String c piece :: pieces
           | [] => [String c EmptyString]
           end
  end.

(** [s.split()] on ASCII text: maximal runs of non-whitespace characters. *)
Fixpoint split_ws (s : string) : list string :=
  match s with
  | EmptyString => []
  | String c rest =>
      if isspace c then split_ws rest
      else match rest with
           | EmptyString => [String c EmptyString]
           | String c' _ =>
               if isspace c' then String c EmptyString :: split_ws rest
               else match split_ws rest with
                    | w :: ws => String c w :: ws
                    | [] => [String c EmptyString]
                    end
           end
  end.

(** [sub in s]. *)
Fixpoint contains (sub s : string) : bool :=
  String.prefix sub s
  || match s with
     | EmptyString => false
     | String _ rest => contains sub rest
     end.

(** [s.replace(old, new)] for a non-empty [old]: leftmost non-overlapping
    occurrences; [skip] counts the characters of a match still to drop. *)
Fixpoint replace_from (skip : nat) (old new s : string) : string :=
  match s with
  | EmptyString => EmptyString
  | String c rest =>
      match skip with
      | S k => replace_from k old new rest
      | O =>
          if String.prefix old s
          then new ++ replace_from (String.length old - 1) old new rest
          else String c (replace_from 0 old new rest)
      end
  end.

Fixpoint intersperse_after (new s : string) : string :=
  match s with
  | EmptyString => EmptyString
  | String c rest => String c (new ++ intersperse_after new rest)
  end.

Definition replace (old new s : string) : string :=
  match old with
  | EmptyString => new ++ intersperse_after new s
  | _ => replace_from 0 old new s
  end.

Fixpoint lstrip (s : string) : string :=
  match s with
  | EmptyString => EmptyString
  | String c rest => if isspace c then lstrip rest else s
  end.

Fixpoint rstrip (s : string) : string :=
  match s with
  | EmptyString => EmptyString
  | String c rest =>
      let r := rstrip rest in
      if isspace c && String.eqb r EmptyString then EmptyString
      else String c r
  end.

(** [s.strip()] on ASCII text. *)
Definition strip (s : string) : string := rstrip (lstrip s).

(** [sorted(set(l))]: ascending in code-point order, without repeats. *)
Fixpoint insert_sorted (x : string) (l : list string) : list string :=
  match l with
  | [] => [x]
  | y :: t =>
      match String.compare x y with
      | Lt => x :: l
      | Eq => l
      | Gt => y :: insert_sorted x t
      end
  end.

Definition sorted_set (l : list string) : list string :=
  fold_right insert_sorted [] l.

(** [x in l] for a list of strings. *)
Definition mem (x : string) (l : list string) : bool :=
  existsb (String.eqb x) l.

(** Well-formed UTF-8, as the strict decoder of [bytes.decode] accepts it:
    the state is what the bytes read so far still call for. *)
Inductive utf8_state :=
| Start          (* at a character boundary *)
| Cont1          (* one more byte 80..BF *)
| Cont2          (* two more bytes 80..BF *)
| Cont3          (* three more bytes 80..BF *)
| AfterE0        (* A0..BF, then one more *)
| AfterED        (* 80..9F, then one more *)
| AfterF0        (* 90..BF, then two more *)
| AfterF4.       (* 80..8F, then two more *)

Definition between (lo hi b : N) : bool := ((lo <=? b) && (b <=? hi))%N.

Definition utf8_step (st : utf8_state) (b : N) : option utf8_state :=
  match st with
  | Start =>
      if between 0 127 b then Some Start
      else if between 194 223 b then Some Cont1
      else if between 224 224 b then Some AfterE0
      else if between 225 236 b || between 238 239 b then Some Cont2
      else if between 237 237 b then Some AfterED
      else if between 240 240 b then Some AfterF0
      else if between 241 243 b then Some Cont3
      else if between 244 244 b then Some AfterF4
      else None
  | Cont1 => if between 128 191 b then Some Start else None
  | Cont2 => if between 128 191 b then Some Cont1 else None
  | Cont3 => if between 128 191 b then Some Cont2 else None
  | AfterE0 => if between 160 191 b then Some Cont1 else None
  | AfterED => if between 128 159 b then Some Cont1 else None
  | AfterF0 => if between 144 191 b then Some Cont2 else None
  | AfterF4 => if between 128 143 b then Some Cont2 else None
  end.

Fixpoint utf8_scan (st : utf8_state) (s : string) : option utf8_state :=
  match s with
  | EmptyString => Some st
  | String c rest =>
      match utf8_step st (N_of_ascii c) with
      | Some st' => utf8_scan st' rest
      | None => None
      end
  end.

(** [data.decode("utf-8")] does not raise. *)
Definition utf8_valid (data : string) : bool :=
  match utf8_scan Start data with
  | Some Start => true
  | _ => false
  end.

(** What [subprocess.run(..., text=True)] does to captured output once it is
    decoded: [data.replace("\r\n", "\n").replace("\r", "\n")]. *)
Definition translate_newlines (data : string) : string :=
  replace (String CR EmptyString) nl (replace (String CR nl) nl data).

End Py.

(** ** Data model (the pydantic models of the service) *)

Inductive build_outcome := success | failed.

Module BuildStatus.
Record t (datetime : Type) := make {
  is_running : bool;
  last_start : option datetime;
  last_finish : option datetime;
  last_status : option build_outcome;
  last_commit : option string;
  repository : string
}.
Arguments make {datetime}.
Arguments is_running {datetime}.
Arguments last_start {datetime}.
Arguments last_finish {datetime}.
Arguments last_status {datetime}.
Arguments last_commit {datetime}.
Arguments repository {datetime}.

(** [BuildStatus(is_running=r, repository=repo)]: every other field takes
    its default, [None]. *)
Definition fresh {datetime} (r : bool) (repo : string) : t datetime :=
  make r None None None None repo.

(** [status.is_running = r]. *)
Definition set_is_running {datetime} (r : bool) (s : t datetime) : t datetime :=
  make r (last_start s) (last_finish s) (last_status s) (last_commit s)
       (repository s).
End BuildStatus.

Inductive trigger_outcome := triggered | already_running.

Module BuildTriggerResponse.
Record t := make {
  status : trigger_outcome;
  message : string;
  repository : string
}.
End BuildTriggerResponse.

Module BuildLogs.
Record t := make { logs : list string }.
End BuildLogs.

Inductive health_verdict := healthy | degraded | down.

Module HealthCheck.
Record t := make {
  status : health_verdict;
  cache_running : bool;
  repositories : list string
}.
End HealthCheck.

(** ** The host: supervisor, files, and the log of subprocesses run *)

Record CompletedProcess := {
  returncode : Z;
  stdout : string;
  stderr : string
}.

(** A file below [DATA_DIR] as the service can observe it: [exists()] is
    false, or it exists but cannot be read, or it holds a text. *)
Inductive File := Missing | Unreadable | Holds (text : string).

(** The command lines the service runs. *)
Inductive Invocation :=
| systemctl_list_units
    (* systemctl list-units --all nix-build-* --no-pager --no-legend *)
| systemctl_is_active (unit : string)      (* systemctl is-active <unit> *)
| sudo_systemctl_start (unit : string)     (* sudo systemctl start <unit> *)
| tail_n (n : Z) (repo : string).
    (* tail -n <n> DATA_DIR/logs/<repo>.log *)

(** What the host answers while one request is served, and [invocations],
    the subprocesses run so far (oldest first).  Between requests every field
    but [invocations] is the host's to change. *)
Record Host := {
  list_units : CompletedProcess;
  is_active : string -> CompletedProcess;
  start : string -> CompletedProcess;
  status_file : string -> File;      (* DATA_DIR/status/<repo>.json *)
  log_file : string -> File;         (* DATA_DIR/logs/<repo>.log *)
  invocations : list Invocation
}.

Definition record (cmd : Invocation) (h : Host) : Host :=
  {| list_units := list_units h;
     is_active := is_active h;
     start := start h;
     status_file := status_file h;
     log_file := log_file h;
     invocations := invocations h ++ [cmd] |}.

(** The units for which a start request was issued, oldest first. *)
Fixpoint start_requests (l : list Invocation) : list string :=
  match l with
  | [] => []
  | sudo_systemctl_start u :: l' => u :: start_requests l'
  | _ :: l' => start_requests l'
  end.

(** *** The [tail] tool *)

(** The lines of a file, each with its terminator; the last may lack one. *)
Fixpoint keepends (s : string) : list string :=
  match s with
  | EmptyString => []
  | String c rest =>
      if Ascii.eqb c Py.LF then String c EmptyString :: keepends rest
      else match keepends rest with
           | l :: ls => String c l :: ls
           | [] => [String c EmptyString]
           end
  end.

Definition last_n {A : Type} (n : nat) (l : list A) : list A :=
  skipn (List.length l - n) l.

(** [tail -n <n> <file>] (GNU coreutils 9.1): the last [n] lines; a count
    written with a minus sign ([str(lines)] of a negative [lines]) is read as
    its magnitude; a magnitude of [2^64] or more is refused before the file
    is looked at. *)
Definition tail (n : Z) (f : File) : CompletedProcess :=
  if (18446744073709551616 <=? Z.abs n)%Z then
    {| returncode := 1; stdout := ""; stderr := "tail: invalid number of lines" |}
  else
    match f with
    | Holds content =>
        {| returncode := 0;
           stdout := String.concat "" (last_n (Z.to_nat (Z.abs n)) (keepends content));
           stderr := "" |}
    | _ =>
        {| returncode := 1; stdout := ""; stderr := "tail: cannot open file" |}
    end.

(** ** Exceptions and the handler monad *)

Inductive Exception :=
| HTTPException (status_code : Z) (detail : string)
| CalledProcessError (code : Z) (err : string)
| OSError
| JSONDecodeError
| TypeError
| ValidationError
| UnicodeDecodeError.

Inductive outcome (A : Type) :=
| Return (a : A)
| Raise (e : Exception).
Arguments Return {A}.
Arguments Raise {A}.

Definition M (A : Type) : Type := Host -> outcome A * Host.

Definition ret {A} (a : A) : M A := fun h => (Return a, h).

Definition raise {A} (e : Exception) : M A := fun h => (Raise e, h).

Definition bind {A B} (m : M A) (k : A -> M B) : M B :=
  fun h =>
    match m h with
    | (Return a, h') => k a h'
    | (Raise e, h') => (Raise e, h')
    end.

Definition lift {A} (o : outcome A) : M A := fun h => (o, h).

(** [try: body / except <class> as e: handler e]; [handler] answers [None]
    on an exception outside the class, which then propagates. *)
Definition try_except {A} (body : M A) (handler : Exception -> option (M A)) : M A :=
  fun h =>
    match body h with
    | (Return a, h') => (Return a, h')
    | (Raise e, h') =>
        match handler e with
        | Some recover => recover h'
        | None => (Raise e, h')
        end
    end.

Notation "x <- c1 ;; c2" := (bind c1 (fun x => c2))
  (at level 61, c1 at next level, right associativity).

(** [subprocess.run(cmd, capture_output=True, text=True, check=check)]. *)
Definition respond (h : Host) (cmd : Invocation) : CompletedProcess :=
  match cmd with
  | systemctl_list_units => list_units h
  | systemctl_is_active unit => is_active h unit
  | sudo_systemctl_start unit => start h unit
  | tail_n n repo => tail n (log_file h repo)
  end.

Definition decode (p : CompletedProcess) : CompletedProcess :=
  {| returncode := returncode p;
     stdout := Py.translate_newlines (stdout p);
     stderr := Py.translate_newlines (stderr p) |}.

(** Whether what a command printed decodes as UTF-8, the encoding [text=True]
    takes from the locale: [systemctl] prints text, and the host record holds
    it as such; [tail] prints bytes of a log file, and on bytes that are no
    UTF-8 [subprocess.run] raises. *)
Definition decodes (cmd : Invocation) (p : CompletedProcess) : bool :=
  match cmd with
  | tail_n _ _ => Py.utf8_valid (stdout p) && Py.utf8_valid (stderr p)
  | _ => true
  end.

Definition subprocess_run (check : bool) (cmd : Invocation) : M CompletedProcess :=
  fun h =>
    let raw := respond h cmd in
    if negb (decodes cmd raw) then (Raise UnicodeDecodeError, record cmd h)
    else
      let p := decode raw in
      if check && negb (returncode p =? 0)%Z
      then (Raise (CalledProcessError (returncode p) (stderr p)), record cmd h)
      else (Return p, record cmd h).

Definition path_exists (f : File) : bool :=
  match f with
  | Missing => false
  | _ => true
  end.

Definition read_text (f : File) : outcome string :=
  match f with
  | Holds text => Return text
  | _ => Raise OSError
  end.

(** ** Helper functions of the service *)

(** The loop of [get_available_repos] over one line of the listing. *)
Definition repo_of_line (line : string) : list string :=
  if Py.contains "nix-build-" line then
    match Py.split_ws line with
    | first :: _ =>
        let service_name := Py.replace ".service" "" first in
        let repo_name := Py.replace "nix-build-" "" service_name in
        [repo_name]
    | [] => []
    end
  else [].

Definition parse_units (listing : string) : list string :=
  Py.sorted_set (flat_map repo_of_line (Py.split Py.LF listing)).

Definition get_available_repos : M (list string) :=
  result <- subprocess_run false systemctl_list_units ;;
  ret (parse_units (stdout result)).

Definition is_build_running (repo : string) : M bool :=
  result <- subprocess_run false (systemctl_is_active ("nix-build-" ++ repo)) ;;
  ret (String.eqb (Py.strip (stdout result)) "active").

Definition is_cache_running : M bool :=
  result <- subprocess_run false (systemctl_is_active "harmonia") ;;
  ret (String.eqb (Py.strip (stdout result)) "active").

(** ** Endpoints that need no persisted status *)

Definition not_found {A} (repository : string) : M A :=
  raise (HTTPException 404 ("Repository '" ++ repository ++ "' not found")).

(** [POST /build/trigger/{repository}] *)
Definition trigger_build (repository : string) : M BuildTriggerResponse.t :=
  repos <- get_available_repos ;;
  if negb (Py.mem repository repos) then not_found repository
  else
    running <- is_build_running repository ;;
    if running then
      ret (BuildTriggerResponse.make already_running
             ("Build for " ++ repository ++ " already in progress") repository)
    else
      try_except
        (_ <- subprocess_run true (sudo_systemctl_start ("nix-build-" ++ repository)) ;;
         ret (BuildTriggerResponse.make triggered
                ("Build started for " ++ repository) repository))
        (fun e =>
           match e with
           | CalledProcessError _ err =>
               Some (raise (HTTPException 500 ("Build trigger failed: " ++ err)))
           | _ => None
           end).

(** [GET /build/logs/{repository}?lines=<lines>] *)
Definition build_logs (repository : string) (lines : Z) : M BuildLogs.t :=
  repos <- get_available_repos ;;
  if negb (Py.mem repository repos) then not_found repository
  else fun h =>
    if negb (path_exists (log_file h repository)) then
      ret (BuildLogs.make []) h
    else
      (let lines := Z.min lines 10000 in
       result <- subprocess_run false (tail_n lines repository) ;;
       ret (BuildLogs.make (Py.split Py.LF (stdout result)))) h.

(** [GET /health] *)
Definition health : M HealthCheck.t :=
  cache_running <- is_cache_running ;;
  repos <- get_available_repos ;;
  let status := if negb cache_running then degraded else healthy in
  ret (HealthCheck.make status cache_running repos).

(** ** Persisted status records *)

(** The values [json.loads] produces. *)
#[warnings="-register-all"]
Inductive json :=
| JNull
| JBool (b : bool)
| JInt (n : Z)
| JFloat (repr : string)
| JStr (s : string)
| JList (items : list json)
| JDict (items : list (string * json)).

Fixpoint dict_get (key : string) (items : list (string * json)) : option json :=
  match items with
  | [] => None
  | (k, v) :: rest => if String.eqb k key then Some v else dict_get key rest
  end.

(** A required field: present and valid. *)
Definition required {A} (validate : json -> option A) (key : string)
    (kw : list (string * json)) : option A :=
  match dict_get key kw with
  | Some v => validate v
  | None => None
  end.

(** A field of type [T | None] with default [None]. *)
Definition optional {A} (validate : json -> option A) (key : string)
    (kw : list (string * json)) : option (option A) :=
  match dict_get key kw with
  | None | Some JNull => Some None
  | Some v => option_map Some (validate v)
  end.

Definition validate_str (v : json) : option string :=
  match v with
  | JStr s => Some s
  | _ => None
  end.

(** [Literal["success", "failed"]] *)
Definition validate_outcome (v : json) : option build_outcome :=
  match v with
  | JStr s =>
      if String.eqb s "success" then Some success
      else if String.eqb s "failed" then Some failed
      else None
  | _ => None
  end.

Section StatusStore.

(** The libraries the reconciler calls: the JSON parser ([None] for a
    [JSONDecodeError]) and pydantic's validators of [bool] and
    [datetime] fields ([None] for a value they reject). *)
Variable datetime : Type.
Variable json_loads : string -> option json.
Variable validate_bool : json -> option bool.
Variable validate_datetime : json -> option datetime.

(** The constructor call [BuildStatus] applied to the keywords of [data]:
    [data] must be a mapping; [is_running] and
    [repository] are required, the rest default to [None]; keys that name
    no field are ignored. *)
Definition BuildStatus_init (data : json) : outcome (BuildStatus.t datetime) :=
  match data with
  | JDict kw =>
      match required validate_bool "is_running" kw,
            optional validate_datetime "last_start" kw,
            optional validate_datetime "last_finish" kw,
            optional validate_outcome "last_status" kw,
            optional validate_str "last_commit" kw,
            required validate_str "repository" kw
      with
      | Some r, Some ls, Some lf, Some st, Some lc, Some repo =>
          Return (BuildStatus.make r ls lf st lc repo)
      | _, _, _, _, _, _ => Raise ValidationError
      end
  | _ => Raise TypeError
  end.

Definition loads (text : string) : outcome json :=
  match json_loads text with
  | Some data => Return data
  | None => Raise JSONDecodeError
  end.

Definition get_build_status (repo : string) : M (BuildStatus.t datetime) :=
  fun h =>
    let file := status_file h repo in
    if negb (path_exists file) then
      ret (BuildStatus.fresh false repo) h
    else
      try_except
        (text <- lift (read_text file) ;;
         data <- lift (loads text) ;;
         status <- lift (BuildStatus_init data) ;;
         running <- is_build_running repo ;;
         ret (BuildStatus.set_is_running running status))
        (fun _ =>
           Some (running <- is_build_running repo ;;
                 ret (BuildStatus.fresh running repo)))
        h.

(** [GET /build/status/{repository}] *)
Definition build_status (repository : string) : M (BuildStatus.t datetime) :=
  repos <- get_available_repos ;;
  if negb (Py.mem repository repos) then not_found repository
  else get_build_status repository.

End StatusStore.

(** ** Vocabulary for the statements *)

(** What the discovery query and the activity probe answer on a host. *)
Definition discovered (h : Host) : list string :=
  parse_units (Py.translate_newlines (stdout (list_units h))).

Definition probe (h : Host) (unit : string) : bool :=
  String.eqb (Py.strip (Py.translate_newlines (stdout (is_active h unit)))) "active".

(** The file whose lines are [ls], each one terminated by a newline. *)
Fixpoint newline_terminated (ls : list string) : string :=
  match ls with
  | [] => EmptyString
  | l :: ls' => (l ++ Py.nl ++ newline_terminated ls')%string
  end.

Fixpoint count (c : ascii) (s : string) : nat :=
  match s with
  | EmptyString => 0
  | String c' rest => (if Ascii.eqb c' c then 1 else 0) + count c rest
  end.

(** A line proper: no line feed and no carriage return inside. *)
Definition plain (l : string) : Prop := count Py.LF l = 0 /\ count Py.CR l = 0.

(** The file a status or log path names is there and cannot be used as a
    status record: it cannot be read, or it is not JSON, or the model class
    rejects the value. *)
Definition corrupt {datetime : Type} (json_loads : string -> option json)
    (validate_bool : json -> option bool)
    (validate_datetime : json -> option datetime) (f : File) : Prop :=
  match f with
  | Missing => False
  | Unreadable => True
  | Holds text =>
      match json_loads text with
      | None => True
      | Some data =>
          match BuildStatus_init datetime validate_bool validate_datetime data with
          | Raise _ => True
          | Return _ => False
          end
      end
  end.

(** Text within ASCII: every byte below 128.  For such text the byte
    string is the text, and ASCII whitespace is all the whitespace there
    is. *)
Fixpoint ascii_only (s : string) : bool :=
  match s with
  | EmptyString => true
  | String c rest => (N_of_ascii c <? 128)%N && ascii_only rest
  end.

(** A string of ASCII whitespace only (possibly empty). *)
Fixpoint all_space (s : string) : bool :=
  match s with
  | EmptyString => true
  | String c rest => Py.isspace c && all_space rest
  end.

(** A string without any ASCII whitespace character. *)
Fixpoint no_space (s : string) : bool :=
  match s with
  | EmptyString => true
  | String c rest => negb (Py.isspace c) && no_space rest
  end.

(** Strictly ascending in the order of [sorted]. *)
Definition ascending (l : list string) : Prop :=
  StronglySorted (fun a b => String.compare a b = Lt) l.

(** A client that polls-and-triggers [repository]: every call finds the unit
    discovered and active; between two calls the host may change any of its
    answers, but nothing else runs subprocesses on the service's behalf. *)
Inductive polled (repository : string) :
    Host -> list (outcome BuildTriggerResponse.t) -> Host -> Prop :=
| polled_done (h : Host) : polled repository h [] h
| polled_call (h h1 h2 h3 : Host) (r : outcome BuildTriggerResponse.t)
    (rs : list (outcome BuildTriggerResponse.t)) :
    In repository (discovered h) ->
    probe h ("nix-build-" ++ repository) = true ->
    trigger_build repository h = (r, h1) ->
    invocations h2 = invocations h1 ->
    polled repository h2 rs h3 ->
    polled repository h (r :: rs) h3.

(** ** A concrete host and concrete library functions *)

Module Sample.

Definition ok (out : string) : CompletedProcess :=
  {| returncode := 0; stdout := out; stderr := "" |}.

Definition exited (code : Z) (out err : string) : CompletedProcess :=
  {| returncode := code; stdout := out; stderr := err |}.

Definition dq : string := String (ascii_of_nat 34) EmptyString.

Definition quoted (s : string) : string := dq ++ s ++ dq.

(** The record the build job of [alpha] left behind. *)
Definition alpha_text : string :=
  "{" ++ quoted "is_running" ++ ": false, "
      ++ quoted "last_finish" ++ ": " ++ quoted "2024-01-01T00:00:00" ++ ", "
      ++ quoted "last_status" ++ ": " ++ quoted "success" ++ ", "
      ++ quoted "repository" ++ ": " ++ quoted "alpha" ++ "}".

Definition alpha_json : json :=
  JDict [("is_running", JBool false);
         ("last_finish", JStr "2024-01-01T00:00:00");
         ("last_status", JStr "success");
         ("repository", JStr "alpha")].

(** A parser that knows three texts. *)
Definition json_loads (text : string) : option json :=
  if String.eqb text alpha_text then Some alpha_json
  else if String.eqb text "{}" then Some (JDict [])
  else if String.eqb text "[]" then Some (JList [])
  else None.

Definition validate_bool (v : json) : option bool :=
  match v with
  | JBool b => Some b
  | _ => None
  end.

(** Timestamps kept as their ISO text. *)
Definition validate_datetime (v : json) : option string := validate_str v.

(** Units [alpha] (idle, built once), [beta] (building for the first
    time), [gamma] (idle, record truncated), [delta] (building, record
    unreadable); the cache daemon is up. *)
Definition host : Host :=
  {| list_units :=
       ok (newline_terminated
             ["nix-build-alpha.service loaded inactive dead Build alpha";
              "nix-build-beta.service  loaded active   running Build beta";
              "nix-build-gamma.service loaded inactive dead Build gamma";
              "nix-build-delta.service loaded active   running Build delta"]);
     is_active := fun unit =>
       if String.eqb unit "nix-build-beta" || String.eqb unit "nix-build-delta"
          || String.eqb unit "harmonia"
       then ok (newline_terminated ["active"])
       else exited 3 (newline_terminated ["inactive"]) "";
     start := fun unit =>
       if String.eqb unit "nix-build-gamma"
       then exited 1 "" (newline_terminated ["Job for nix-build-gamma.service failed."])
       else ok "";
     status_file := fun repo =>
       if String.eqb repo "alpha" then Holds alpha_text
       else if String.eqb repo "gamma" then Holds "{"
       else if String.eqb repo "delta" then Unreadable
       else Missing;
     log_file := fun repo =>
       if String.eqb repo "alpha" then Holds (newline_terminated ["a"])
       else if String.eqb repo "gamma" then Holds (newline_terminated ["one"; "two"; "three"])
       else if String.eqb repo "delta" then Holds EmptyString
       else Missing;
     invocations := [] |}.

(** The same host with the cache daemon stopped. *)
Definition host_cache_down : Host :=
  {| list_units := list_units host;
     is_active := fun unit =>
       if String.eqb unit "harmonia" then exited 3 (newline_terminated ["inactive"]) ""
       else is_active host unit;
     start := start host;
     status_file := status_file host;
     log_file := log_file host;
     invocations := [] |}.

(** The host when the supervisor cannot be reached: the listing command
    prints nothing. *)
Definition host_silent : Host :=
  {| list_units := exited 1 "" (newline_terminated ["Failed to connect to bus"]);
     is_active := is_active host;
     start := start host;
     status_file := status_file host;
     log_file := log_file host;
     invocations := [] |}.

(** A record with an outcome the model class does not know. *)
Definition unknown_text : string :=
  "{" ++ quoted "is_running" ++ ": false, "
      ++ quoted "last_status" ++ ": " ++ quoted "unknown" ++ ", "
      ++ quoted "repository" ++ ": " ++ quoted "gamma" ++ "}".

Definition unknown_json : json :=
  JDict [("is_running", JBool false);
         ("last_status", JStr "unknown");
         ("repository", JStr "gamma")].

Definition json_loads_more (text : string) : option json :=
  if String.eqb text unknown_text then Some unknown_json else json_loads text.

(** The sample host with other status files: an empty object for [alpha],
    the unknown outcome for [gamma]. *)
Definition host_records : Host :=
  {| list_units := list_units host;
     is_active := is_active host;
     start := start host;
     status_file := fun repo =>
       if String.eqb repo "alpha" then Holds "{}"
       else if String.eqb repo "gamma" then Holds unknown_text
       else Missing;
     log_file := log_file host;
     invocations := [] |}.

(** The sample host with other logs: the last line of [alpha]'s log is not
    terminated, the log of [gamma] cannot be read. *)
Definition host_logs : Host :=
  {| list_units := list_units host;
     is_active := is_active host;
     start := start host;
     status_file := status_file host;
     log_file := fun repo =>
       if String.eqb repo "alpha" then Holds (newline_terminated ["one"] ++ "two")
       else if String.eqb repo "gamma" then Unreadable
       else log_file host repo;
     invocations := [] |}.

(** The sample host when the build of [gamma] wrote bytes that are no
    UTF-8 (FF FE) into its log. *)
Definition host_bad_log : Host :=
  {| list_units := list_units host;
     is_active := is_active host;
     start := start host;
     status_file := status_file host;
     log_file := fun repo =>
       if String.eqb repo "gamma"
       then Holds (newline_terminated
                     ["ok"; String (ascii_of_nat 255)
                              (String (ascii_of_nat 254) EmptyString)])
       else log_file host repo;
     invocations := [] |}.

End Sample.

(** * Properties *)

(** ** Running the probes *)

Lemma get_available_repos_run (h : Host) :
  get_available_repos h = (Return (discovered h), record systemctl_list_units h).
Proof. reflexivity. Qed.

Lemma is_build_running_run (repo : string) (h : Host) :
  is_build_running repo h =
  (Return (probe h ("nix-build-" ++ repo)),
   record (systemctl_is_active ("nix-build-" ++ repo)) h).
Proof. reflexivity. Qed.

Lemma is_cache_running_run (h : Host) :
  is_cache_running h =
  (Return (probe h "harmonia"), record (systemctl_is_active "harmonia") h).
Proof. reflexivity. Qed.

(** Running a subprocess changes the invocation log and nothing else. *)
Lemma discovered_record (cmd : Invocation) (h : Host) :
  discovered (record cmd h) = discovered h.
Proof. reflexivity. Qed.

Lemma probe_record (cmd : Invocation) (h : Host) (unit : string) :
  probe (record cmd h) unit = probe h unit.
Proof. reflexivity. Qed.

Lemma bind_run {A B} (m : M A) (k : A -> M B) (h h' : Host) (a : A) :
  m h = (Return a, h') -> (x <- m ;; k x) h = k a h'.
Proof. intros E. unfold bind. now rewrite E. Qed.

Lemma mem_In (x : string) (l : list string) : Py.mem x l = true <-> In x l.
Proof.
  unfold Py.mem. rewrite existsb_exists. split.
  - intros [y [Hy E]]. apply String.eqb_eq in E. now subst.
  - intros H. exists x. split; [assumption | apply String.eqb_refl].
Qed.

Lemma mem_not_In (x : string) (l : list string) : ~ In x l -> Py.mem x l = false.
Proof.
  intros H. destruct (Py.mem x l) eqn:E; [|reflexivity].
  apply mem_In in E. contradiction.
Qed.

Lemma start_requests_app (l1 l2 : list Invocation) :
  start_requests (l1 ++ l2) = start_requests l1 ++ start_requests l2.
Proof.
  induction l1 as [|c l1 IH]; simpl; [reflexivity|].
  destruct c; simpl; now rewrite IH.
Qed.

(** ** Trigger coordination *)

(** C4.  When the unit is discovered and the probe finds it active,
    [trigger_build] answers [already_running] after the two queries and
    issues no start request; a client that keeps triggering while the unit
    stays active gets [already_running] every time and the list of start
    requests never grows. *)
Theorem trigger_build_already_running (repository : string) (h : Host)
    (repos : list string) :
  fst (get_available_repos h) = Return repos ->
  In repository repos ->
  fst (is_build_running repository h) = Return true ->
  trigger_build repository h
    = (Return (BuildTriggerResponse.make already_running
                 ("Build for " ++ repository ++ " already in progress")
                 repository),
       record (systemctl_is_active ("nix-build-" ++ repository))
              (record systemctl_list_units h))
  /\ start_requests (invocations (snd (trigger_build repository h)))
     = start_requests (invocations h)
  /\ forall rs h',
       polled repository h rs h' ->
       start_requests (invocations h') = start_requests (invocations h)
       /\ Forall (fun r => exists response,
                     r = Return response
                     /\ BuildTriggerResponse.status response = already_running)
                 rs.
Proof.
  intros Hrepos Hin Hrun.
  assert (Hcall : forall g, In repository (discovered g) ->
            probe g ("nix-build-" ++ repository) = true ->
            trigger_build repository g
            = (Return (BuildTriggerResponse.make already_running
                         ("Build for " ++ repository ++ " already in progress")
                         repository),
               record (systemctl_is_active ("nix-build-" ++ repository))
                      (record systemctl_list_units g))).
  { intros g Hg Hp. unfold trigger_build.
    rewrite (bind_run _ _ _ _ _ (get_available_repos_run g)).
    apply mem_In in Hg. rewrite Hg. change (negb true) with false. cbv iota.
    rewrite (bind_run _ _ _ _ _ (is_build_running_run repository _)).
    rewrite probe_record, Hp. reflexivity. }
  rewrite get_available_repos_run in Hrepos. simpl in Hrepos.
  injection Hrepos as <-.
  rewrite is_build_running_run in Hrun. simpl in Hrun.
  injection Hrun as Hrun.
  split; [now apply Hcall|].
  split.
  - rewrite (Hcall h Hin Hrun). simpl.
    rewrite !start_requests_app. simpl. now rewrite !app_nil_r.
  - intros rs h' Hpoll. clear Hin Hrun.
    induction Hpoll as [g | g g1 g2 g3 r rs Hg Hp Hr Hinv _ IH].
    + split; [reflexivity | constructor].
    + rewrite (Hcall g Hg Hp) in Hr. injection Hr as <- <-.
      destruct IH as [IHs IHf]. split.
      * rewrite IHs, Hinv. simpl.
        rewrite !start_requests_app. simpl. now rewrite !app_nil_r.
      * constructor; [|assumption]. eexists. split; reflexivity.
Qed.

(** ** Health *)

Lemma health_run (h : Host) :
  health h =
  (Return (HealthCheck.make
             (if negb (probe h "harmonia") then degraded else healthy)
             (probe h "harmonia") (discovered h)),
   record systemctl_list_units (record (systemctl_is_active "harmonia") h)).
Proof. reflexivity. Qed.

(** C6.  On every host [health] returns a [HealthCheck] whose
    [cache_running] is the cache probe's answer, whose status is [degraded]
    when that answer is false and [healthy] when it is true, whatever units
    exist and whatever they do, and whose [repositories] is the discovery
    set of that moment. *)
Theorem health_follows_cache_probe (h : Host) :
  exists v,
    fst (health h) = Return v
    /\ fst (is_cache_running h) = Return (HealthCheck.cache_running v)
    /\ (HealthCheck.cache_running v = false -> HealthCheck.status v = degraded)
    /\ (HealthCheck.cache_running v = true -> HealthCheck.status v = healthy)
    /\ fst (get_available_repos h) = Return (HealthCheck.repositories v).
Proof.
  rewrite health_run, is_cache_running_run, get_available_repos_run.
  eexists. split; [reflexivity|]. simpl.
  repeat split; intros ->; reflexivity.
Qed.

(** C9.  Whatever the probes answer and whatever is discovered, the status
    [health] returns is [healthy] or [degraded], never [down]. *)
Theorem health_never_down (h : Host) :
  exists v,
    fst (health h) = Return v
    /\ (HealthCheck.status v = healthy \/ HealthCheck.status v = degraded)
    /\ HealthCheck.status v <> down.
Proof.
  rewrite health_run. eexists. split; [reflexivity|]. simpl.
  destruct (probe h "harmonia"); simpl; split; auto; discriminate.
Qed.

(** ** Log retrieval *)

Lemma build_logs_missing_run (repository : string) (lines : Z) (h : Host) :
  In repository (discovered h) ->
  log_file h repository = Missing ->
  build_logs repository lines h
    = (Return (BuildLogs.make []), record systemctl_list_units h).
Proof.
  intros Hin Hlog. unfold build_logs.
  rewrite (bind_run _ _ _ _ _ (get_available_repos_run h)).
  apply mem_In in Hin. rewrite Hin. change (negb true) with false.
  cbv beta iota.
  change (log_file (record systemctl_list_units h) repository)
    with (log_file h repository).
  rewrite Hlog. reflexivity.
Qed.

(** C8.  For a discovered unit whose log file does not exist, [build_logs]
    returns the empty list of lines, raises nothing and runs no [tail]. *)
Theorem build_logs_missing_file (repository : string) (lines : Z) (h : Host)
    (repos : list string) :
  fst (get_available_repos h) = Return repos ->
  In repository repos ->
  log_file h repository = Missing ->
  build_logs repository lines h
    = (Return (BuildLogs.make []), record systemctl_list_units h).
Proof.
  intros Hrepos Hin Hlog.
  rewrite get_available_repos_run in Hrepos. simpl in Hrepos.
  injection Hrepos as <-.
  now apply build_logs_missing_run.
Qed.

Lemma tail_stderr_valid (n : Z) (f : File) :
  Py.utf8_valid (stderr (tail n f)) = true.
Proof.
  unfold tail. destruct (18446744073709551616 <=? Z.abs n)%Z; [reflexivity|].
  destruct f; reflexivity.
Qed.

(** A discovered unit whose log file is there: [tail] is run, and the
    answer is its decoded output split at line feeds, or the decoding
    error. *)
Lemma build_logs_existing_run (repository : string) (lines : Z) (h : Host) :
  In repository (discovered h) ->
  path_exists (log_file h repository) = true ->
  build_logs repository lines h
    = (if Py.utf8_valid
            (stdout (tail (Z.min lines 10000) (log_file h repository)))
       then Return (BuildLogs.make
                      (Py.split Py.LF
                         (Py.translate_newlines
                            (stdout (tail (Z.min lines 10000)
                                       (log_file h repository))))))
       else Raise UnicodeDecodeError,
       record (tail_n (Z.min lines 10000) repository)
              (record systemctl_list_units h)).
Proof.
  intros Hin Hlog. unfold build_logs.
  rewrite (bind_run _ _ _ _ _ (get_available_repos_run h)).
  apply mem_In in Hin. rewrite Hin. change (negb true) with false.
  cbv beta iota.
  change (log_file (record systemctl_list_units h) repository)
    with (log_file h repository).
  rewrite Hlog. change (negb true) with false. cbv iota.
  unfold bind, subprocess_run, decodes, respond.
  change (log_file (record systemctl_list_units h) repository)
    with (log_file h repository).
  rewrite tail_stderr_valid, andb_true_r.
  destruct (Py.utf8_valid
              (stdout (tail (Z.min lines 10000) (log_file h repository))));
    reflexivity.
Qed.

Lemma build_logs_existing_file (repository : string) (lines : Z) (h : Host) :
  In repository (discovered h) ->
  path_exists (log_file h repository) = true ->
  Py.utf8_valid (stdout (tail (Z.min lines 10000) (log_file h repository))) = true ->
  build_logs repository lines h
    = (Return (BuildLogs.make
                 (Py.split Py.LF
                    (Py.translate_newlines
                       (stdout (tail (Z.min lines 10000) (log_file h repository)))))),
       record (tail_n (Z.min lines 10000) repository)
              (record systemctl_list_units h)).
Proof.
  intros Hin Hlog Hv. rewrite (build_logs_existing_run _ _ _ Hin Hlog).
  now rewrite Hv.
Qed.

(** *** Strings, lines and the pieces of a split *)

Lemma append_empty_r (s : string) : (s ++ "")%string = s.
Proof. induction s as [|c s IH]; simpl; [reflexivity | now rewrite IH]. Qed.

Lemma append_assoc (s t u : string) :
  ((s ++ t) ++ u)%string = (s ++ (t ++ u))%string.
Proof. induction s as [|c s IH]; simpl; [reflexivity | now rewrite IH]. Qed.

Lemma count_app (c : ascii) (s t : string) :
  count c (s ++ t) = count c s + count c t.
Proof.
  induction s as [|c' s IH]; simpl; [reflexivity|]. rewrite IH. lia.
Qed.

Lemma count_cons_zero (c c' : ascii) (s : string) :
  count c (String c' s) = 0 -> Ascii.eqb c' c = false /\ count c s = 0.
Proof.
  simpl. destruct (Ascii.eqb c' c); [discriminate | auto].
Qed.

Lemma concat_cons (x : string) (xs : list string) :
  String.concat "" (x :: xs) = (x ++ String.concat "" xs)%string.
Proof.
  destruct xs as [|y ys]; simpl; [now rewrite append_empty_r | reflexivity].
Qed.

Lemma concat_app (l1 l2 : list string) :
  String.concat "" (l1 ++ l2)
  = (String.concat "" l1 ++ String.concat "" l2)%string.
Proof.
  induction l1 as [|x l1 IH]; [reflexivity|].
  rewrite <- app_comm_cons, !concat_cons, IH. now rewrite append_assoc.
Qed.

Lemma length_split (sep : ascii) (s : string) :
  List.length (Py.split sep s) = S (count sep s).
Proof.
  induction s as [|c s IH]; simpl; [reflexivity|].
  destruct (Ascii.eqb c sep); simpl.
  - now rewrite IH.
  - destruct (Py.split sep s) as [|p ps]; [discriminate | exact IH].
Qed.

Lemma split_plain (l : string) :
  count Py.LF l = 0 -> Py.split Py.LF l = [l].
Proof.
  induction l as [|c l IH]; intros H; [reflexivity|].
  apply count_cons_zero in H as [Hc Hl].
  simpl. rewrite Hc, (IH Hl). reflexivity.
Qed.

Lemma split_line (l rest : string) :
  count Py.LF l = 0 ->
  Py.split Py.LF (l ++ Py.nl ++ rest) = l :: Py.split Py.LF rest.
Proof.
  induction l as [|c l IH]; intros H; [reflexivity|].
  apply count_cons_zero in H as [Hc Hl].
  simpl. rewrite Hc. simpl in IH. rewrite (IH Hl). reflexivity.
Qed.

(** Splitting a file of [k] terminated lines followed by an unterminated
    rest gives the lines and then the rest: [k + 1] pieces. *)
Lemma split_newline_terminated (ls : list string) (rest : string) :
  Forall (fun l => count Py.LF l = 0) ls ->
  count Py.LF rest = 0 ->
  Py.split Py.LF (newline_terminated ls ++ rest) = ls ++ [rest].
Proof.
  intros Hls Hrest. induction Hls as [|l ls Hl _ IH]; simpl.
  - now apply split_plain.
  - rewrite append_assoc. change (String Py.LF ?s) with (Py.nl ++ s)%string.
    rewrite append_assoc. rewrite (split_line _ _ Hl), IH. reflexivity.
Qed.

Lemma keepends_line (l rest : string) :
  count Py.LF l = 0 ->
  keepends (l ++ Py.nl ++ rest) = (l ++ Py.nl)%string :: keepends rest.
Proof.
  induction l as [|c l IH]; intros H; [reflexivity|].
  apply count_cons_zero in H as [Hc Hl].
  simpl. rewrite Hc. simpl in IH. rewrite (IH Hl). reflexivity.
Qed.

Lemma keepends_newline_terminated (ls : list string) :
  Forall (fun l => count Py.LF l = 0) ls ->
  keepends (newline_terminated ls) = map (fun l => (l ++ Py.nl)%string) ls.
Proof.
  intros Hls. induction Hls as [|l ls Hl _ IH]; [reflexivity|].
  change (newline_terminated (l :: ls))
    with (l ++ Py.nl ++ newline_terminated ls)%string.
  rewrite (keepends_line _ _ Hl), IH. reflexivity.
Qed.

Lemma concat_terminated (ls : list string) :
  String.concat "" (map (fun l => (l ++ Py.nl)%string) ls) = newline_terminated ls.
Proof.
  induction ls as [|l ls IH]; [reflexivity|].
  simpl map. rewrite concat_cons, IH. simpl. now rewrite append_assoc.
Qed.

(** The lines of a file, put back together, are the file. *)
Lemma concat_keepends (s : string) : String.concat "" (keepends s) = s.
Proof.
  induction s as [|c s IH]; [reflexivity|].
  simpl keepends. destruct (Ascii.eqb c Py.LF).
  - rewrite concat_cons, IH. reflexivity.
  - destruct (keepends s) as [|l ls] eqn:E.
    + simpl in IH. now subst.
    + rewrite concat_cons in *. simpl. now rewrite IH.
Qed.

(** A line holds at most one line feed, its terminator. *)
Lemma keepends_one_feed (s : string) :
  Forall (fun l => count Py.LF l <= 1) (keepends s).
Proof.
  induction s as [|c s IH]; simpl; [constructor|].
  destruct (Ascii.eqb c Py.LF) eqn:Ec.
  - constructor; [simpl; rewrite Ec; lia | assumption].
  - destruct (keepends s) as [|l ls].
    + constructor; [simpl; rewrite Ec; lia | constructor].
    + inversion IH; subst. constructor; [simpl; rewrite Ec; lia | assumption].
Qed.

Lemma count_concat_le (c : ascii) (ls : list string) :
  Forall (fun l => count c l <= 1) ls ->
  count c (String.concat "" ls) <= List.length ls.
Proof.
  intros H. induction H as [|l ls Hl _ IH]; [simpl; lia|].
  rewrite concat_cons, count_app. simpl List.length. lia.
Qed.

(** *** The last [n] of a list *)

Lemma length_last_n {A} (n : nat) (l : list A) :
  List.length (last_n n l) = Nat.min n (List.length l).
Proof. unfold last_n. rewrite length_skipn. lia. Qed.

Lemma last_n_all {A} (n : nat) (l : list A) :
  List.length l <= n -> last_n n l = l.
Proof.
  intros H. unfold last_n. replace (List.length l - n) with 0 by lia.
  reflexivity.
Qed.

Lemma last_n_map {A B} (f : A -> B) (n : nat) (l : list A) :
  last_n n (map f l) = map f (last_n n l).
Proof. unfold last_n. now rewrite length_map, skipn_map. Qed.

Lemma Forall_last_n {A} (P : A -> Prop) (n : nat) (l : list A) :
  Forall P l -> Forall P (last_n n l).
Proof.
  intros H. unfold last_n.
  rewrite <- (firstn_skipn (List.length l - n) l) in H.
  now apply Forall_app in H.
Qed.

(** What [tail] prints is a suffix of the file. *)
Lemma tail_suffix (n : nat) (content : string) :
  exists before,
    content = (before ++ String.concat "" (last_n n (keepends content)))%string.
Proof.
  exists (String.concat "" (firstn (List.length (keepends content) - n) (keepends content))).
  unfold last_n. rewrite <- concat_app, firstn_skipn. symmetry. apply concat_keepends.
Qed.

(** *** Output without carriage returns is decoded unchanged *)

Lemma replace_from_absent (c : ascii) (old' new s : string) :
  count c s = 0 -> Py.replace_from 0 (String c old') new s = s.
Proof.
  induction s as [|c' s IH]; intros H; [reflexivity|].
  apply count_cons_zero in H as [Hc Hs].
  simpl. destruct (ascii_dec c c') as [->|_].
  - rewrite Ascii.eqb_refl in Hc. discriminate.
  - now rewrite (IH Hs).
Qed.

Lemma translate_newlines_plain (s : string) :
  count Py.CR s = 0 -> Py.translate_newlines s = s.
Proof.
  intros H. unfold Py.translate_newlines, Py.replace, Py.nl.
  rewrite (replace_from_absent Py.CR _ _ s H).
  apply replace_from_absent, H.
Qed.

(** *** Decoding what [tail] prints *)

Lemma utf8_scan_app (st : Py.utf8_state) (a b : string) :
  Py.utf8_scan st (a ++ b)
  = match Py.utf8_scan st a with
    | Some st' => Py.utf8_scan st' b
    | None => None
    end.
Proof.
  revert st. induction a as [|c a IH]; intros st; simpl; [reflexivity|].
  destruct (Py.utf8_step st (N_of_ascii c)); [apply IH | reflexivity].
Qed.

(** A line feed is read at a character boundary only, and leaves one. *)
Lemma utf8_step_LF (st st' : Py.utf8_state) :
  Py.utf8_step st (N_of_ascii Py.LF) = Some st' ->
  st = Py.Start /\ st' = Py.Start.
Proof.
  destruct st; vm_compute; intros E; try discriminate.
  injection E as <-. auto.
Qed.

(** From the second line of a file on, what follows is read from a
    character boundary. *)
Lemma utf8_scan_later_lines (s : string) (st e : Py.utf8_state) (j : nat) :
  Py.utf8_scan st s = Some e ->
  1 <= j ->
  skipn j (keepends s) = []
  \/ Py.utf8_scan Py.Start (String.concat "" (skipn j (keepends s))) = Some e.
Proof.
  revert st j. induction s as [|c s IH]; intros st j Hs Hj.
  - left. now destruct j.
  - cbn [Py.utf8_scan] in Hs.
    destruct (Py.utf8_step st (N_of_ascii c)) as [st'|] eqn:Hstep;
      [|discriminate].
    destruct j as [|j]; [lia|].
    cbn [keepends]. destruct (Ascii.eqb c Py.LF) eqn:Hc.
    + apply Ascii.eqb_eq in Hc. subst c.
      apply utf8_step_LF in Hstep as [_ ->].
      cbn [skipn]. destruct j as [|j].
      * right. cbn [skipn]. now rewrite concat_keepends.
      * apply (IH Py.Start (S j) Hs). lia.
    + destruct (keepends s) as [|l ls] eqn:Hk.
      * left. now destruct j.
      * cbn [skipn].
        change (skipn j ls) with (skipn (S j) (l :: ls)).
        apply (IH st' (S j) Hs). lia.
Qed.

(** Whatever [tail] prints from a log that is valid UTF-8 is valid UTF-8. *)
Lemma tail_stdout_valid (n : Z) (f : File) :
  (forall content, f = Holds content -> Py.utf8_valid content = true) ->
  Py.utf8_valid (stdout (tail n f)) = true.
Proof.
  intros Hv. unfold tail.
  destruct (18446744073709551616 <=? Z.abs n)%Z; [reflexivity|].
  destruct f as [| |content]; try reflexivity.
  specialize (Hv content eq_refl). cbn [stdout]. unfold last_n.
  set (j := List.length (keepends content) - Z.to_nat (Z.abs n)).
  unfold Py.utf8_valid in *.
  destruct (Py.utf8_scan Py.Start content) as [e|] eqn:Hs; [|discriminate].
  destruct j as [|j].
  - cbn [skipn]. now rewrite concat_keepends, Hs.
  - destruct (utf8_scan_later_lines content Py.Start e (S j) Hs) as [E|E];
      [lia | now rewrite E | now rewrite E].
Qed.

Lemma tail_holds (n : Z) (content : string) :
  (Z.abs n < 18446744073709551616)%Z ->
  tail n (Holds content)
  = {| returncode := 0;
       stdout := String.concat "" (last_n (Z.to_nat (Z.abs n)) (keepends content));
       stderr := "" |}.
Proof.
  intros Hn. unfold tail.
  destruct (Z.leb_spec 18446744073709551616 (Z.abs n)); [lia | reflexivity].
Qed.

(** [tail] prints nothing from an empty file, whatever the count. *)
Lemma tail_empty (n : Z) : stdout (tail n (Holds EmptyString)) = EmptyString.
Proof.
  unfold tail. destruct (18446744073709551616 <=? Z.abs n)%Z; [reflexivity|].
  cbn [stdout keepends]. unfold last_n. now rewrite skipn_nil.
Qed.

(** [tail] prints nothing on its standard output for a file it cannot
    read. *)
Lemma tail_unreadable (n : Z) : stdout (tail n Unreadable) = EmptyString.
Proof.
  unfold tail. now destruct (18446744073709551616 <=? Z.abs n)%Z.
Qed.

(** *** What [build_logs] returns for a log that is there *)

Lemma count_newline_terminated (c : ascii) (ls : list string) :
  Forall (fun l => count c l = 0) ls ->
  count c (newline_terminated ls) = if Ascii.eqb Py.LF c then List.length ls else 0.
Proof.
  intros H. induction H as [|l ls Hl _ IH].
  - cbn [newline_terminated count List.length].
    now destruct (Ascii.eqb Py.LF c).
  - change (newline_terminated (l :: ls))
      with (l ++ String Py.LF (newline_terminated ls))%string.
    rewrite count_app, Hl. cbn [count List.length]. rewrite IH.
    destruct (Ascii.eqb Py.LF c); lia.
Qed.

(** The decoded output of [tail] on a file of plain, terminated lines. *)
Lemma tail_newline_terminated (n : Z) (ls : list string) :
  (Z.abs n < 18446744073709551616)%Z ->
  Forall plain ls ->
  Py.translate_newlines (stdout (tail n (Holds (newline_terminated ls))))
  = newline_terminated (last_n (Z.to_nat (Z.abs n)) ls).
Proof.
  intros Hn Hls. rewrite (tail_holds _ _ Hn). cbn [stdout].
  assert (Hlf : Forall (fun l => count Py.LF l = 0) ls)
    by (eapply Forall_impl; [|exact Hls]; now intros l [H _]).
  assert (Hcr : Forall (fun l => count Py.CR l = 0) ls)
    by (eapply Forall_impl; [|exact Hls]; now intros l [_ H]).
  rewrite (keepends_newline_terminated _ Hlf), last_n_map, concat_terminated.
  apply translate_newlines_plain.
  rewrite count_newline_terminated; [reflexivity|].
  now apply Forall_last_n.
Qed.

Lemma build_logs_newline_terminated (repository : string) (lines : Z) (h : Host)
    (ls : list string) :
  In repository (discovered h) ->
  (Z.abs (Z.min lines 10000) < 18446744073709551616)%Z ->
  Forall plain ls ->
  Py.utf8_valid (newline_terminated ls) = true ->
  log_file h repository = Holds (newline_terminated ls) ->
  fst (build_logs repository lines h)
  = Return (BuildLogs.make
              (last_n (Z.to_nat (Z.abs (Z.min lines 10000))) ls ++ [EmptyString])).
Proof.
  intros Hin Hn Hls Hv Hlog.
  rewrite build_logs_existing_file; try assumption.
  - simpl fst. rewrite Hlog, (tail_newline_terminated _ _ Hn Hls).
    rewrite <- (append_empty_r (newline_terminated _)).
    rewrite split_newline_terminated; [reflexivity| |reflexivity].
    apply Forall_last_n. eapply Forall_impl; [|exact Hls]. now intros l [H _].
  - now rewrite Hlog.
  - apply tail_stdout_valid. intros content E. rewrite Hlog in E.
    injection E as <-. exact Hv.
Qed.

(** The number of pieces when the log holds no carriage return. *)
Lemma build_logs_piece_count (repository : string) (lines : Z) (h : Host)
    (content : string) :
  In repository (discovered h) ->
  (Z.abs (Z.min lines 10000) < 18446744073709551616)%Z ->
  log_file h repository = Holds content ->
  count Py.CR content = 0 ->
  Py.utf8_valid content = true ->
  exists r,
    fst (build_logs repository lines h) = Return r
    /\ List.length (BuildLogs.logs r) <= Z.to_nat (Z.abs (Z.min lines 10000)) + 1.
Proof.
  intros Hin Hn Hlog Hcr Hv.
  rewrite build_logs_existing_file; try assumption.
  - eexists. split; [reflexivity|]. simpl BuildLogs.logs.
    rewrite Hlog, (tail_holds _ _ Hn). cbn [stdout].
    set (w := Z.to_nat (Z.abs (Z.min lines 10000))).
    destruct (tail_suffix w content) as [before Hb].
    rewrite Hb, count_app in Hcr.
    rewrite translate_newlines_plain by lia.
    rewrite length_split.
    pose proof (count_concat_le Py.LF _
                  (Forall_last_n _ w _ (keepends_one_feed content))) as Hle.
    rewrite length_last_n in Hle. lia.
  - now rewrite Hlog.
  - apply tail_stdout_valid. intros c E. rewrite Hlog in E.
    injection E as <-. exact Hv.
Qed.

(** C5, amended.  For a discovered unit, a requested count [n >= 0] and a
    log that is valid UTF-8 without carriage returns, [build_logs] returns
    at most [min n 10000 + 1] pieces: the lines [tail] selected and the
    piece after the last line feed.  With [n = 10000] and a log of exactly
    [k <= 10000] plain, newline-terminated lines it returns the [k] lines in
    their original order followed by one empty string. *)
Theorem build_logs_bounded (repository : string) (n : Z) (h : Host)
    (repos : list string) :
  fst (get_available_repos h) = Return repos ->
  In repository repos ->
  (0 <= n)%Z ->
  (forall content,
      log_file h repository = Holds content ->
      count Py.CR content = 0 /\ Py.utf8_valid content = true) ->
  exists r,
    fst (build_logs repository n h) = Return r
    /\ List.length (BuildLogs.logs r) <= Z.to_nat (Z.min n 10000) + 1
    /\ (forall ls,
          n = 10000%Z ->
          Forall plain ls ->
          (Z.of_nat (List.length ls) <= 10000)%Z ->
          log_file h repository = Holds (newline_terminated ls) ->
          BuildLogs.logs r = ls ++ [EmptyString]).
Proof.
  intros Hrepos Hin Hn Hok.
  rewrite get_available_repos_run in Hrepos. simpl in Hrepos.
  injection Hrepos as <-.
  assert (Hw : Z.to_nat (Z.abs (Z.min n 10000)) = Z.to_nat (Z.min n 10000))
    by (f_equal; lia).
  assert (Hb : (Z.abs (Z.min n 10000) < 18446744073709551616)%Z) by lia.
  destruct (log_file h repository) as [| |content] eqn:Hlog.
  - rewrite (build_logs_missing_run _ _ _ Hin Hlog).
    eexists. split; [reflexivity|]. split; [simpl; lia|].
    intros ls _ _ _ Hfile. discriminate.
  - rewrite build_logs_existing_file;
      [ | assumption | now rewrite Hlog
        | apply tail_stdout_valid; rewrite Hlog; discriminate ].
    rewrite Hlog, tail_unreadable. eexists. split; [reflexivity|].
    split; [simpl; lia|].
    intros ls _ _ _ Hfile. discriminate.
  - destruct (Hok content eq_refl) as [Hcr Hv].
    destruct (build_logs_piece_count repository n h content Hin Hb Hlog Hcr Hv)
      as [r [Hr Hlen]].
    exists r. split; [exact Hr|]. split; [lia|].
    intros ls -> Hls Hk Hfile. injection Hfile as ->.
    rewrite (build_logs_newline_terminated _ _ _ ls Hin Hb Hls Hv Hlog) in Hr.
    injection Hr as <-. simpl BuildLogs.logs.
    rewrite last_n_all; [reflexivity | lia].
Qed.

(** C10, amended.  For a discovered unit whose log file exists and, when it
    can be read, holds valid UTF-8, [build_logs] returns the decoded output
    of [tail] split at line feeds, a list of at least one piece.  A log of
    [k] plain, newline-terminated lines, asked for with a count above
    [- 2^64], gives the selected lines followed by a trailing empty string:
    [k + 1] pieces when the [k] lines fit in the requested window, fewer when
    they do not.  An empty log file gives the one-piece list holding the
    empty string. *)
Theorem build_logs_trailing_piece (repository : string) (lines : Z) (h : Host)
    (repos : list string) :
  fst (get_available_repos h) = Return repos ->
  In repository repos ->
  path_exists (log_file h repository) = true ->
  (forall content,
      log_file h repository = Holds content -> Py.utf8_valid content = true) ->
  let window := Z.to_nat (Z.abs (Z.min lines 10000)) in
  exists r,
    fst (build_logs repository lines h) = Return r
    /\ BuildLogs.logs r
       = Py.split Py.LF
           (Py.translate_newlines
              (stdout (tail (Z.min lines 10000) (log_file h repository))))
    /\ 1 <= List.length (BuildLogs.logs r)
    /\ (forall ls,
          Forall plain ls ->
          (- 18446744073709551616 < lines)%Z ->
          log_file h repository = Holds (newline_terminated ls) ->
          BuildLogs.logs r = last_n window ls ++ [EmptyString]
          /\ List.length (BuildLogs.logs r) = Nat.min window (List.length ls) + 1
          /\ (List.length ls <= window ->
              BuildLogs.logs r = ls ++ [EmptyString]
              /\ List.length (BuildLogs.logs r) = List.length ls + 1))
    /\ (log_file h repository = Holds EmptyString ->
        BuildLogs.logs r = [EmptyString]).
Proof.
  intros Hrepos Hin Hlog Hv window.
  rewrite get_available_repos_run in Hrepos. simpl in Hrepos.
  injection Hrepos as <-.
  pose proof (tail_stdout_valid (Z.min lines 10000) _ Hv) as Hout.
  rewrite (build_logs_existing_file _ _ _ Hin Hlog Hout).
  eexists. split; [reflexivity|]. simpl BuildLogs.logs.
  split; [reflexivity|]. split; [rewrite length_split; lia|].
  assert (Hnt : forall ls, Forall plain ls ->
            (- 18446744073709551616 < lines)%Z ->
            log_file h repository = Holds (newline_terminated ls) ->
            Py.split Py.LF
              (Py.translate_newlines
                 (stdout (tail (Z.min lines 10000) (log_file h repository))))
            = last_n window ls ++ [EmptyString]).
  { intros ls Hls Hb Hfile.
    assert (Hb' : (Z.abs (Z.min lines 10000) < 18446744073709551616)%Z) by lia.
    pose proof (build_logs_newline_terminated _ lines _ ls Hin Hb' Hls
                  (Hv _ Hfile) Hfile) as Hr.
    rewrite (build_logs_existing_file _ _ _ Hin Hlog Hout) in Hr.
    now injection Hr. }
  split.
  - intros ls Hls Hb Hfile. rewrite (Hnt ls Hls Hb Hfile).
    split; [reflexivity|]. split.
    + rewrite length_app, length_last_n. reflexivity.
    + intros Hk. rewrite (last_n_all _ _ Hk). split; [reflexivity|].
      now rewrite length_app.
  - intros Hfile. rewrite Hfile, tail_empty. reflexivity.
Qed.

(** ** Status reconciliation and unknown units *)

Section Reconciler.

Variable datetime : Type.
Variable json_loads : string -> option json.
Variable validate_bool : json -> option bool.
Variable validate_datetime : json -> option datetime.

Local Abbreviation get_status :=
  (get_build_status datetime json_loads validate_bool validate_datetime).
Local Abbreviation status :=
  (build_status datetime json_loads validate_bool validate_datetime).
Local Abbreviation init :=
  (BuildStatus_init datetime validate_bool validate_datetime).
Local Abbreviation unusable := (corrupt json_loads validate_bool validate_datetime).

(** No record: the answer is fixed and the probe is not run. *)
Lemma get_build_status_missing (repo : string) (h : Host) :
  status_file h repo = Missing ->
  get_status repo h = (Return (BuildStatus.fresh false repo), h).
Proof. intros H. unfold get_build_status. now rewrite H. Qed.

(** A record that passes validation: its fields, with [is_running]
    overwritten by the probe. *)
Lemma get_build_status_valid (repo text : string) (data : json)
    (st : BuildStatus.t datetime) (h : Host) :
  status_file h repo = Holds text ->
  json_loads text = Some data ->
  init data = Return st ->
  get_status repo h
  = (Return (BuildStatus.set_is_running (probe h ("nix-build-" ++ repo)) st),
     record (systemctl_is_active ("nix-build-" ++ repo)) h).
Proof.
  intros Hf Hj Hi. unfold get_build_status, try_except, bind, lift, loads.
  rewrite Hf. simpl. rewrite Hj, Hi. reflexivity.
Qed.

Lemma get_build_status_unusable (repo : string) (h : Host) :
  unusable (status_file h repo) ->
  get_status repo h
  = (Return (BuildStatus.fresh (probe h ("nix-build-" ++ repo)) repo),
     record (systemctl_is_active ("nix-build-" ++ repo)) h).
Proof.
  intros Hc. unfold get_build_status, try_except, bind, lift, loads.
  unfold corrupt in Hc.
  destruct (status_file h repo) as [| |text]; [contradiction|reflexivity|].
  simpl. destruct (json_loads text) as [data|]; [|reflexivity].
  destruct (init data); [contradiction|reflexivity].
Qed.

(** Whenever the status file is there, [is_running] is the probe's
    answer, whatever the record says. *)
Lemma get_build_status_existing_uses_probe (repo : string) (h : Host) :
  status_file h repo <> Missing ->
  exists st,
    fst (get_status repo h) = Return st
    /\ BuildStatus.is_running st = probe h ("nix-build-" ++ repo).
Proof.
  intros Hex.
  destruct (status_file h repo) as [| |text] eqn:Hf; [contradiction| |].
  - rewrite get_build_status_unusable by now rewrite Hf.
    eexists; split; reflexivity.
  - destruct (json_loads text) as [data|] eqn:Hj.
    + destruct (init data) as [st|e] eqn:Hi.
      * rewrite (get_build_status_valid _ _ _ _ _ Hf Hj Hi).
        eexists; split; reflexivity.
      * rewrite get_build_status_unusable
          by (unfold corrupt; now rewrite Hf, Hj, Hi).
        eexists; split; reflexivity.
    + rewrite get_build_status_unusable by (unfold corrupt; now rewrite Hf, Hj).
      eexists; split; reflexivity.
Qed.

(** [get_build_status] never raises. *)
Lemma get_build_status_returns (repo : string) (h : Host) :
  exists st, fst (get_status repo h) = Return st.
Proof.
  destruct (status_file h repo) as [| |text] eqn:Hf.
  - rewrite (get_build_status_missing _ _ Hf). now eexists.
  - destruct (get_build_status_existing_uses_probe repo h) as [st [H _]];
      [now rewrite Hf | now exists st].
  - destruct (get_build_status_existing_uses_probe repo h) as [st [H _]];
      [now rewrite Hf | now exists st].
Qed.

(** Records the model class rejects: a value that is no mapping, a
    mapping without [repository], a mapping without [is_running]. *)
Lemma init_requires_repository (kw : list (string * json)) :
  dict_get "repository" kw = None -> init (JDict kw) = Raise ValidationError.
Proof.
  intros H. unfold BuildStatus_init, required at 2. rewrite H.
  destruct (required validate_bool "is_running" kw),
    (optional validate_datetime "last_start" kw),
    (optional validate_datetime "last_finish" kw),
    (optional validate_outcome "last_status" kw),
    (optional validate_str "last_commit" kw); reflexivity.
Qed.

Lemma init_requires_is_running (kw : list (string * json)) :
  dict_get "is_running" kw = None -> init (JDict kw) = Raise ValidationError.
Proof.
  intros H. unfold BuildStatus_init, required at 1. now rewrite H.
Qed.

Lemma init_requires_mapping (data : json) :
  (forall kw, data <> JDict kw) -> exists e, init data = Raise e.
Proof.
  intros H. destruct data; try (now eexists). now destruct (H items).
Qed.

(** C7.  When the status file of a unit exists but cannot be read, is not
    JSON, or is rejected by the model class, [get_build_status] raises
    nothing and returns the status with [last_start], [last_finish],
    [last_status] and [last_commit] empty and [is_running] as the probe
    answers. *)
Theorem get_build_status_corrupt_record (repo : string) (h : Host) :
  unusable (status_file h repo) ->
  exists running,
    fst (is_build_running repo h) = Return running
    /\ get_status repo h
       = (Return (BuildStatus.make running None None None None repo),
          record (systemctl_is_active ("nix-build-" ++ repo)) h).
Proof.
  intros Hc. exists (probe h ("nix-build-" ++ repo)).
  split; [now rewrite is_build_running_run|].
  now apply get_build_status_unusable.
Qed.

(** C3.  A unit identifier outside the discovery set makes [build_status],
    [trigger_build] and [build_logs] each raise [HTTPException] 404, and the
    discovery query is the only subprocess the handler has run. *)
Theorem unknown_unit_not_found (repository : string) (lines : Z) (h : Host)
    (repos : list string) :
  fst (get_available_repos h) = Return repos ->
  ~ In repository repos ->
  let detail := ("Repository '" ++ repository ++ "' not found")%string in
  status repository h
    = (Raise (HTTPException 404 detail), record systemctl_list_units h)
  /\ trigger_build repository h
    = (Raise (HTTPException 404 detail), record systemctl_list_units h)
  /\ build_logs repository lines h
    = (Raise (HTTPException 404 detail), record systemctl_list_units h).
Proof.
  intros Hrepos Hnot detail.
  rewrite get_available_repos_run in Hrepos. simpl in Hrepos.
  injection Hrepos as <-.
  apply mem_not_In in Hnot.
  unfold build_status, trigger_build, build_logs.
  rewrite !(bind_run _ _ _ _ _ (get_available_repos_run h)).
  rewrite Hnot. simpl. repeat split.
Qed.

(** For a discovered unit [build_status] is [get_build_status] after the
    discovery query. *)
Lemma build_status_known (repository : string) (h : Host) :
  In repository (discovered h) ->
  status repository h = get_status repository (record systemctl_list_units h).
Proof.
  intros Hin. unfold build_status.
  rewrite (bind_run _ _ _ _ _ (get_available_repos_run h)).
  apply mem_In in Hin. now rewrite Hin.
Qed.

End Reconciler.

(** ** The sample host *)

Example sample_discovery :
  fst (get_available_repos Sample.host)
  = Return ["alpha"; "beta"; "delta"; "gamma"].
Proof. vm_compute. reflexivity. Qed.

(** The worked example of the idle, once-built unit: history from the
    record, [is_running] from the probe. *)
Example sample_alpha_status :
  fst (get_build_status string Sample.json_loads Sample.validate_bool
         Sample.validate_datetime "alpha" Sample.host)
  = Return (BuildStatus.make false None (Some "2024-01-01T00:00:00")
              (Some success) None "alpha").
Proof. vm_compute. reflexivity. Qed.

(** C1.  On the sample host the unit [beta] has no status file and its
    probe answers active, yet [get_build_status] returns [is_running] false
    (with every historical field empty): without a record the probe is not
    consulted. *)
Theorem get_build_status_no_record_skips_probe :
  status_file Sample.host "beta" = Missing
  /\ fst (is_build_running "beta" Sample.host) = Return true
  /\ get_build_status string Sample.json_loads Sample.validate_bool
       Sample.validate_datetime "beta" Sample.host
     = (Return (BuildStatus.make false None None None None "beta"), Sample.host).
Proof. repeat split; vm_compute; reflexivity. Qed.

(** C2.  On the sample host [beta] is discovered and its probe answers
    active, yet the status [build_status] returns for it has [is_running]
    false, because it has no persisted record. *)
Theorem build_status_active_unit_without_record :
  In "beta" (discovered Sample.host)
  /\ fst (is_build_running "beta" (record systemctl_list_units Sample.host))
     = Return true
  /\ exists st,
       fst (build_status string Sample.json_loads Sample.validate_bool
              Sample.validate_datetime "beta" Sample.host) = Return st
       /\ BuildStatus.is_running st = false.
Proof.
  split; [vm_compute; auto|]. split; [vm_compute; reflexivity|].
  eexists. split; vm_compute; reflexivity.
Qed.

(** C5 as stated fails: asked for one line of a one-line log, [build_logs]
    returns two pieces, the line and an empty string. *)
Lemma build_logs_exceeds_requested_count :
  ~ (forall (repository : string) (n : Z) (h : Host) (repos : list string)
            (r : BuildLogs.t),
        fst (get_available_repos h) = Return repos ->
        In repository repos ->
        fst (build_logs repository n h) = Return r ->
        (Z.of_nat (List.length (BuildLogs.logs r)) <= Z.min n 10000)%Z).
Proof.
  intros H.
  specialize (H "alpha" 1%Z Sample.host ["alpha"; "beta"; "delta"; "gamma"]
                (BuildLogs.make ["a"; ""])).
  assert (Hd : fst (get_available_repos Sample.host)
               = Return ["alpha"; "beta"; "delta"; "gamma"])
    by (vm_compute; reflexivity).
  assert (Hr : fst (build_logs "alpha" 1 Sample.host)
               = Return (BuildLogs.make ["a"; ""]))
    by (vm_compute; reflexivity).
  specialize (H Hd (or_introl eq_refl) Hr). simpl in H. lia.
Qed.

(** C10 as stated fails: a newline-terminated log of three lines asked for
    with [lines = 2] gives three pieces, the last two lines and an empty
    string, not four. *)
Lemma build_logs_window_cuts_lines :
  ~ (forall (repository : string) (lines : Z) (h : Host) (repos ls : list string)
            (r : BuildLogs.t),
        fst (get_available_repos h) = Return repos ->
        In repository repos ->
        Forall (fun l => count Py.LF l = 0) ls ->
        log_file h repository = Holds (newline_terminated ls) ->
        fst (build_logs repository lines h) = Return r ->
        List.length (BuildLogs.logs r) = List.length ls + 1).
Proof.
  intros H.
  specialize (H "gamma" 2%Z Sample.host ["alpha"; "beta"; "delta"; "gamma"]
                ["one"; "two"; "three"] (BuildLogs.make ["two"; "three"; ""])).
  assert (Hd : fst (get_available_repos Sample.host)
               = Return ["alpha"; "beta"; "delta"; "gamma"])
    by (vm_compute; reflexivity).
  assert (Hl : log_file Sample.host "gamma"
               = Holds (newline_terminated ["one"; "two"; "three"]))
    by (vm_compute; reflexivity).
  assert (Hr : fst (build_logs "gamma" 2 Sample.host)
               = Return (BuildLogs.make ["two"; "three"; ""]))
    by (vm_compute; reflexivity).
  assert (Hp : Forall (fun l => count Py.LF l = 0) ["one"; "two"; "three"])
    by (repeat constructor).
  specialize (H Hd (or_intror (or_intror (or_intror (or_introl eq_refl)))) Hp Hl Hr).
  simpl in H. discriminate.
Qed.

(** X21.  A negative [lines] above [- 2^64] passes [min] unchanged and
    [tail] reads it as its magnitude: for a log of plain, newline-terminated
    lines that is valid UTF-8 the window is then [- lines], also beyond
    10000. *)
Lemma build_logs_negative_count (repository : string) (lines : Z) (h : Host)
    (ls : list string) :
  (- 18446744073709551616 < lines < 0)%Z ->
  In repository (discovered h) ->
  Forall plain ls ->
  Py.utf8_valid (newline_terminated ls) = true ->
  log_file h repository = Holds (newline_terminated ls) ->
  fst (build_logs repository lines h)
  = Return (BuildLogs.make (last_n (Z.to_nat (- lines)) ls ++ [EmptyString])).
Proof.
  intros Hneg Hin Hls Hv Hlog.
  rewrite (build_logs_newline_terminated _ _ _ ls Hin); try assumption; [|lia].
  replace (Z.to_nat (Z.abs (Z.min lines 10000))) with (Z.to_nat (- lines)) by lia.
  reflexivity.
Qed.

(** A client that polls-and-triggers [beta] twice in a row on the sample
    host. *)
Example sample_polled_twice :
  let r := Return (BuildTriggerResponse.make already_running
                     "Build for beta already in progress" "beta") in
  let queries := [systemctl_list_units; systemctl_is_active "nix-build-beta"] in
  exists h2,
    polled "beta" Sample.host [r; r] h2
    /\ invocations h2 = queries ++ queries.
Proof.
  intros r queries.
  pose (h1 := record (systemctl_is_active "nix-build-beta")
                (record systemctl_list_units Sample.host)).
  exists (record (systemctl_is_active "nix-build-beta")
            (record systemctl_list_units h1)).
  split; [|reflexivity].
  apply polled_call with (h1 := h1) (h2 := h1).
  - vm_compute; auto.
  - vm_compute; reflexivity.
  - vm_compute; reflexivity.
  - reflexivity.
  - eapply polled_call; [ | | | | apply polled_done].
    + vm_compute; auto.
    + vm_compute; reflexivity.
    + vm_compute; reflexivity.
    + reflexivity.
Qed.

(** ** The theorems at work on the sample host *)

Lemma unknown_unit_not_found_witness :
  build_status string Sample.json_loads Sample.validate_bool
      Sample.validate_datetime "zeta" Sample.host
    = (Raise (HTTPException 404 "Repository 'zeta' not found"),
       record systemctl_list_units Sample.host)
  /\ trigger_build "zeta" Sample.host
    = (Raise (HTTPException 404 "Repository 'zeta' not found"),
       record systemctl_list_units Sample.host)
  /\ build_logs "zeta" 100 Sample.host
    = (Raise (HTTPException 404 "Repository 'zeta' not found"),
       record systemctl_list_units Sample.host).
Proof.
  apply (unknown_unit_not_found string Sample.json_loads Sample.validate_bool
           Sample.validate_datetime "zeta" 100%Z Sample.host
           ["alpha"; "beta"; "delta"; "gamma"]).
  - vm_compute. reflexivity.
  - simpl. intuition discriminate.
Defined.

Lemma trigger_build_already_running_witness :
  trigger_build "beta" Sample.host
    = (Return (BuildTriggerResponse.make already_running
                 "Build for beta already in progress" "beta"),
       record (systemctl_is_active "nix-build-beta")
              (record systemctl_list_units Sample.host))
  /\ start_requests (invocations (snd (trigger_build "beta" Sample.host)))
     = start_requests (invocations Sample.host)
  /\ forall rs h',
       polled "beta" Sample.host rs h' ->
       start_requests (invocations h') = start_requests (invocations Sample.host)
       /\ Forall (fun r => exists response,
                     r = Return response
                     /\ BuildTriggerResponse.status response = already_running)
                 rs.
Proof.
  apply (trigger_build_already_running "beta" Sample.host
           ["alpha"; "beta"; "delta"; "gamma"]).
  - vm_compute. reflexivity.
  - simpl. auto.
  - vm_compute. reflexivity.
Defined.

Lemma build_logs_missing_file_witness :
  build_logs "beta" 100 Sample.host
    = (Return (BuildLogs.make []), record systemctl_list_units Sample.host).
Proof.
  apply (build_logs_missing_file "beta" 100%Z Sample.host
           ["alpha"; "beta"; "delta"; "gamma"]).
  - vm_compute. reflexivity.
  - simpl. auto.
  - vm_compute. reflexivity.
Defined.

Lemma build_logs_bounded_witness :
  exists r,
    fst (build_logs "gamma" 10000 Sample.host) = Return r
    /\ List.length (BuildLogs.logs r) <= Z.to_nat (Z.min 10000 10000) + 1
    /\ (forall ls,
          10000%Z = 10000%Z ->
          Forall plain ls ->
          (Z.of_nat (List.length ls) <= 10000)%Z ->
          log_file Sample.host "gamma" = Holds (newline_terminated ls) ->
          BuildLogs.logs r = ls ++ [EmptyString]).
Proof.
  apply (build_logs_bounded "gamma" 10000%Z Sample.host
           ["alpha"; "beta"; "delta"; "gamma"]).
  - vm_compute. reflexivity.
  - simpl. auto.
  - lia.
  - intros content H. vm_compute in H. injection H as <-.
    split; vm_compute; reflexivity.
Defined.

Lemma build_logs_trailing_piece_witness :
  exists r,
    fst (build_logs "gamma" 2 Sample.host) = Return r
    /\ BuildLogs.logs r
       = Py.split Py.LF
           (Py.translate_newlines
              (stdout (tail (Z.min 2 10000) (log_file Sample.host "gamma"))))
    /\ 1 <= List.length (BuildLogs.logs r)
    /\ (forall ls,
          Forall plain ls ->
          (- 18446744073709551616 < 2)%Z ->
          log_file Sample.host "gamma" = Holds (newline_terminated ls) ->
          BuildLogs.logs r
          = last_n (Z.to_nat (Z.abs (Z.min 2 10000))) ls ++ [EmptyString]
          /\ List.length (BuildLogs.logs r)
             = Nat.min (Z.to_nat (Z.abs (Z.min 2 10000))) (List.length ls) + 1
          /\ (List.length ls <= Z.to_nat (Z.abs (Z.min 2 10000)) ->
              BuildLogs.logs r = ls ++ [EmptyString]
              /\ List.length (BuildLogs.logs r) = List.length ls + 1))
    /\ (log_file Sample.host "gamma" = Holds EmptyString ->
        BuildLogs.logs r = [EmptyString]).
Proof.
  apply (build_logs_trailing_piece "gamma" 2%Z Sample.host
           ["alpha"; "beta"; "delta"; "gamma"]).
  - vm_compute. reflexivity.
  - simpl. auto.
  - vm_compute. reflexivity.
  - intros content H. vm_compute in H. injection H as <-.
    vm_compute. reflexivity.
Defined.

Lemma get_build_status_corrupt_record_witness :
  exists running,
    fst (is_build_running "gamma" Sample.host) = Return running
    /\ get_build_status string Sample.json_loads Sample.validate_bool
         Sample.validate_datetime "gamma" Sample.host
       = (Return (BuildStatus.make running None None None None "gamma"),
          record (systemctl_is_active "nix-build-gamma") Sample.host).
Proof.
  apply (get_build_status_corrupt_record string Sample.json_loads
           Sample.validate_bool Sample.validate_datetime "gamma" Sample.host).
  vm_compute. exact I.
Defined.

(** * Further properties of the service *)

(** ** Discovery *)

Lemma ascii_compare_lt_trans (a b c : ascii) :
  Ascii.compare a b = Lt -> Ascii.compare b c = Lt -> Ascii.compare a c = Lt.
Proof.
  unfold Ascii.compare. rewrite !N.compare_lt_iff. lia.
Qed.

Lemma compare_lt_trans (s t u : string) :
  String.compare s t = Lt -> String.compare t u = Lt -> String.compare s u = Lt.
Proof.
  revert t u. induction s as [|a s IH]; intros [|b t] [|c u]; simpl;
    try discriminate; try reflexivity.
  destruct (Ascii.compare a b) eqn:Eab; try discriminate;
    destruct (Ascii.compare b c) eqn:Ebc; try discriminate; intros Hst Htu.
  - apply Ascii.compare_eq_iff in Eab, Ebc. subst.
    assert (E : Ascii.compare c c = Eq) by (unfold Ascii.compare; apply N.compare_refl).
    rewrite E. eapply IH; eassumption.
  - apply Ascii.compare_eq_iff in Eab. subst. now rewrite Ebc.
  - apply Ascii.compare_eq_iff in Ebc. subst. now rewrite Eab.
  - now rewrite (ascii_compare_lt_trans _ _ _ Eab Ebc).
Qed.

Lemma compare_refl (s : string) : String.compare s s = Eq.
Proof.
  induction s as [|a s IH]; [reflexivity|]. simpl.
  assert (E : Ascii.compare a a = Eq) by (unfold Ascii.compare; apply N.compare_refl).
  now rewrite E.
Qed.

Lemma insert_sorted_In (x y : string) (l : list string) :
  In y (Py.insert_sorted x l) <-> y = x \/ In y l.
Proof.
  induction l as [|z l IH]; simpl.
  - intuition.
  - destruct (String.compare x z) eqn:E; simpl.
    + apply String.compare_eq_iff in E. subst. intuition.
    + intuition.
    + rewrite IH. intuition.
Qed.

Lemma sorted_set_In (y : string) (l : list string) :
  In y (Py.sorted_set l) <-> In y l.
Proof.
  induction l as [|x l IH]; simpl; [reflexivity|].
  rewrite insert_sorted_In, IH. intuition.
Qed.

Lemma insert_sorted_ascending (x : string) (l : list string) :
  ascending l -> ascending (Py.insert_sorted x l).
Proof.
  unfold ascending. intros H. induction H as [|z l Hl IH Hz]; simpl.
  - repeat constructor.
  - destruct (String.compare x z) eqn:E.
    + now constructor.
    + constructor; [now constructor|]. constructor; [exact E|].
      eapply Forall_impl; [|exact Hz]. intros w Hw.
      eapply compare_lt_trans; eassumption.
    + constructor; [exact IH|].
      apply Forall_forall. intros w Hw. apply insert_sorted_In in Hw as [->|Hw].
      * rewrite String.compare_antisym, E. reflexivity.
      * rewrite Forall_forall in Hz. now apply Hz.
Qed.

Lemma sorted_set_ascending (l : list string) : ascending (Py.sorted_set l).
Proof.
  induction l as [|x l IH]; simpl; [constructor|].
  now apply insert_sorted_ascending.
Qed.

Lemma ascending_NoDup (l : list string) : ascending l -> NoDup l.
Proof.
  intros H. induction H as [|z l Hl IH Hz]; constructor; [|exact IH].
  intros Hin. rewrite Forall_forall in Hz. specialize (Hz z Hin).
  rewrite compare_refl in Hz. discriminate.
Qed.

(** X1.  On every host the discovery query returns its names in strictly
    ascending order, hence without repeats. *)
Theorem get_available_repos_ascending (h : Host) :
  exists repos,
    fst (get_available_repos h) = Return repos
    /\ ascending repos
    /\ NoDup repos.
Proof.
  rewrite get_available_repos_run. eexists. split; [reflexivity|].
  assert (H : ascending (discovered h)) by apply sorted_set_ascending.
  split; [exact H | now apply ascending_NoDup].
Qed.

(** X2.  When the listing is ASCII text, a name is discovered exactly when
    some line of the decoded listing mentions [nix-build-] and the name is
    the first word of that line with every [.service] and then every
    [nix-build-] removed: sorting and deduplication neither lose nor invent
    a name.  (Outside ASCII [split()] also cuts at the whitespace of
    Unicode, which [Py.split_ws] does not know.) *)
Theorem get_available_repos_members (h : Host) (name : string) :
  ascii_only (stdout (list_units h)) = true ->
  (exists repos, fst (get_available_repos h) = Return repos /\ In name repos)
  <->
  (exists line first rest,
      In line (Py.split Py.LF (Py.translate_newlines (stdout (list_units h))))
      /\ Py.contains "nix-build-" line = true
      /\ Py.split_ws line = first :: rest
      /\ name = Py.replace "nix-build-" "" (Py.replace ".service" "" first)).
Proof.
  intros _.
  rewrite get_available_repos_run. simpl fst. unfold discovered, parse_units.
  split.
  - intros [repos [E Hin]]. injection E as <-.
    apply sorted_set_In, in_flat_map in Hin as [line [Hline Hname]].
    unfold repo_of_line in Hname.
    destruct (Py.contains "nix-build-" line) eqn:Hc; [|contradiction].
    destruct (Py.split_ws line) as [|first rest] eqn:Hw; [contradiction|].
    destruct Hname as [<-|[]]. exists line, first, rest. auto.
  - intros [line [first [rest [Hline [Hc [Hw ->]]]]]].
    eexists. split; [reflexivity|].
    apply sorted_set_In, in_flat_map. exists line. split; [exact Hline|].
    unfold repo_of_line. rewrite Hc, Hw. now left.
Qed.

(** *** A listing that mentions no build unit *)

Lemma contains_cons (sub : string) (c : ascii) (s : string) :
  Py.contains sub (String c s)
  = String.prefix sub (String c s) || Py.contains sub s.
Proof. reflexivity. Qed.

Lemma prefix_app (sub t b : string) :
  String.prefix sub t = true -> String.prefix sub (t ++ b) = true.
Proof.
  revert sub. induction t as [|c t IH]; intros [|a sub]; simpl.
  - intros _. now destruct b.
  - discriminate.
  - reflexivity.
  - destruct (ascii_dec a c); [apply IH | discriminate].
Qed.

Lemma contains_app_r (sub t b : string) :
  Py.contains sub t = true -> Py.contains sub (t ++ b) = true.
Proof.
  induction t as [|c t IH].
  - simpl. rewrite orb_false_r. destruct sub; [|discriminate].
    intros _. destruct b; reflexivity.
  - change ((String c t ++ b)%string) with (String c (t ++ b)).
    rewrite !contains_cons. intros H. apply orb_true_iff in H as [H|H].
    + apply (prefix_app _ _ b) in H. simpl append in H. now rewrite H.
    + rewrite (IH H). apply orb_true_r.
Qed.

Lemma contains_app_l (sub a t : string) :
  Py.contains sub t = true -> Py.contains sub (a ++ t) = true.
Proof.
  intros H. induction a as [|c a IH]; [exact H|].
  change ((String c a ++ t)%string) with (String c (a ++ t)).
  rewrite contains_cons, IH. apply orb_true_r.
Qed.

Lemma split_head_prefix (sep : ascii) (s p : string) (ps : list string) :
  Py.split sep s = p :: ps -> exists b, s = (p ++ b)%string.
Proof.
  revert p ps. induction s as [|c s IH]; intros p ps; simpl.
  - intros E. injection E as <- <-. now exists EmptyString.
  - destruct (Ascii.eqb c sep).
    + intros E. injection E as <- <-. now exists (String c s).
    + destruct (Py.split sep s) as [|q qs] eqn:Es.
      * pose proof (length_split sep s) as L. rewrite Es in L. discriminate.
      * intros E. injection E as <- <-.
        destruct (IH q qs eq_refl) as [b ->]. now exists b.
Qed.

(** Every piece of a split is a contiguous part of the string. *)
Lemma split_piece_part (sep : ascii) (s piece : string) :
  In piece (Py.split sep s) -> exists a b, s = (a ++ piece ++ b)%string.
Proof.
  revert piece. induction s as [|c s IH]; intros piece; simpl.
  - intros [<-|[]]. now exists EmptyString, EmptyString.
  - destruct (Ascii.eqb c sep).
    + intros [<-|Hin].
      * now exists EmptyString, (String c s).
      * destruct (IH _ Hin) as [a [b ->]]. now exists (String c a), b.
    + destruct (Py.split sep s) as [|q qs] eqn:Es.
      * intros [<-|[]]. exists EmptyString, s. reflexivity.
      * intros [<-|Hin].
        -- destruct (split_head_prefix _ _ _ _ Es) as [b ->].
           now exists EmptyString, b.
        -- destruct (IH piece (or_intror Hin)) as [a [b ->]].
           now exists (String c a), b.
Qed.

Lemma contains_piece (sub : string) (sep : ascii) (s piece : string) :
  In piece (Py.split sep s) ->
  Py.contains sub piece = true -> Py.contains sub s = true.
Proof.
  intros Hin Hc. destruct (split_piece_part _ _ _ Hin) as [a [b ->]].
  now apply contains_app_l, contains_app_r.
Qed.

Lemma parse_units_none (listing : string) :
  Py.contains "nix-build-" listing = false -> parse_units listing = [].
Proof.
  intros H. unfold parse_units.
  assert (E : forall l, (forall line, In line l -> In line (Py.split Py.LF listing)) ->
                        flat_map repo_of_line l = []).
  { induction l as [|line l IH]; intros Hl; [reflexivity|]. simpl.
    rewrite IH by (intros x Hx; apply Hl; now right).
    unfold repo_of_line.
    destruct (Py.contains "nix-build-" line) eqn:Hc; [|reflexivity].
    rewrite (contains_piece _ _ _ _ (Hl line (or_introl eq_refl)) Hc) in H.
    discriminate. }
  now rewrite E.
Qed.

(** Outside the discovery set every unit endpoint answers 404. *)
Lemma handlers_not_found (datetime : Type) (json_loads : string -> option json)
    (validate_bool : json -> option bool)
    (validate_datetime : json -> option datetime)
    (repository : string) (lines : Z) (h : Host) :
  ~ In repository (discovered h) ->
  let detail := ("Repository '" ++ repository ++ "' not found")%string in
  fst (build_status datetime json_loads validate_bool validate_datetime
         repository h) = Raise (HTTPException 404 detail)
  /\ fst (trigger_build repository h) = Raise (HTTPException 404 detail)
  /\ fst (build_logs repository lines h) = Raise (HTTPException 404 detail).
Proof.
  intros Hnot detail. apply mem_not_In in Hnot.
  unfold build_status, trigger_build, build_logs.
  rewrite !(bind_run _ _ _ _ _ (get_available_repos_run h)).
  rewrite Hnot. simpl. repeat split.
Qed.

(** X3.  When the decoded listing nowhere mentions [nix-build-] (no unit
    configured, or a failed query that printed nothing), the discovery set
    is empty and [build_status], [trigger_build] and [build_logs] answer
    404 for every identifier. *)
Theorem no_build_units_all_not_found (datetime : Type)
    (json_loads : string -> option json) (validate_bool : json -> option bool)
    (validate_datetime : json -> option datetime) (h : Host) :
  Py.contains "nix-build-" (Py.translate_newlines (stdout (list_units h))) = false ->
  fst (get_available_repos h) = Return []
  /\ forall (repository : string) (lines : Z),
       let detail := ("Repository '" ++ repository ++ "' not found")%string in
       fst (build_status datetime json_loads validate_bool validate_datetime
              repository h) = Raise (HTTPException 404 detail)
       /\ fst (trigger_build repository h) = Raise (HTTPException 404 detail)
       /\ fst (build_logs repository lines h) = Raise (HTTPException 404 detail).
Proof.
  intros H. apply parse_units_none in H.
  split.
  - rewrite get_available_repos_run. simpl. unfold discovered. now rewrite H.
  - intros repository lines. apply handlers_not_found.
    unfold discovered. rewrite H. intros [].
Qed.

(** ** Triggering an idle unit *)

Lemma trigger_build_idle_run (repository : string) (h : Host) :
  In repository (discovered h) ->
  probe h ("nix-build-" ++ repository) = false ->
  trigger_build repository h
  = (if (returncode (start h ("nix-build-" ++ repository)) =? 0)%Z
     then Return (BuildTriggerResponse.make triggered
                    ("Build started for " ++ repository) repository)
     else Raise (HTTPException 500
                   ("Build trigger failed: "
                    ++ Py.translate_newlines
                         (stderr (start h ("nix-build-" ++ repository))))),
     record (sudo_systemctl_start ("nix-build-" ++ repository))
       (record (systemctl_is_active ("nix-build-" ++ repository))
          (record systemctl_list_units h))).
Proof.
  intros Hin Hp. unfold trigger_build.
  rewrite (bind_run _ _ _ _ _ (get_available_repos_run h)).
  apply mem_In in Hin. rewrite Hin. change (negb true) with false. cbv iota.
  rewrite (bind_run _ _ _ _ _ (is_build_running_run repository _)).
  rewrite probe_record, Hp.
  unfold try_except, bind, subprocess_run, decode, respond, ret, raise.
  cbn [returncode stderr stdout start record andb].
  destruct (returncode (start h ("nix-build-" ++ repository)) =? 0)%Z;
    reflexivity.
Qed.

(** X5.  For a discovered unit that the probe finds idle and whose start
    command exits with status 0, [trigger_build] answers [triggered] and has
    issued exactly one start request, for the unit of that repository. *)
Theorem trigger_build_idle_started (repository : string) (h : Host)
    (repos : list string) :
  fst (get_available_repos h) = Return repos ->
  In repository repos ->
  fst (is_build_running repository h) = Return false ->
  returncode (start h ("nix-build-" ++ repository)) = 0%Z ->
  fst (trigger_build repository h)
    = Return (BuildTriggerResponse.make triggered
                ("Build started for " ++ repository) repository)
  /\ start_requests (invocations (snd (trigger_build repository h)))
     = start_requests (invocations h) ++ [("nix-build-" ++ repository)%string].
Proof.
  intros Hrepos Hin Hrun Hrc.
  rewrite get_available_repos_run in Hrepos. simpl in Hrepos.
  injection Hrepos as <-.
  rewrite is_build_running_run in Hrun. simpl in Hrun. injection Hrun as Hrun.
  rewrite (trigger_build_idle_run _ _ Hin Hrun), Hrc. simpl.
  split; [reflexivity|].
  rewrite !start_requests_app. simpl. now rewrite !app_nil_r.
Qed.

(** X6.  For a discovered idle unit whose start command exits with a
    non-zero status, [trigger_build] raises [HTTPException] 500 whose detail
    carries the command's decoded standard error; the start request was
    issued all the same. *)
Theorem trigger_build_idle_start_refused (repository : string) (h : Host)
    (repos : list string) :
  fst (get_available_repos h) = Return repos ->
  In repository repos ->
  fst (is_build_running repository h) = Return false ->
  returncode (start h ("nix-build-" ++ repository)) <> 0%Z ->
  fst (trigger_build repository h)
    = Raise (HTTPException 500
               ("Build trigger failed: "
                ++ Py.translate_newlines
                     (stderr (start h ("nix-build-" ++ repository)))))
  /\ start_requests (invocations (snd (trigger_build repository h)))
     = start_requests (invocations h) ++ [("nix-build-" ++ repository)%string].
Proof.
  intros Hrepos Hin Hrun Hrc.
  rewrite get_available_repos_run in Hrepos. simpl in Hrepos.
  injection Hrepos as <-.
  rewrite is_build_running_run in Hrun. simpl in Hrun. injection Hrun as Hrun.
  rewrite (trigger_build_idle_run _ _ Hin Hrun).
  apply Z.eqb_neq in Hrc. rewrite Hrc. simpl.
  split; [reflexivity|].
  rewrite !start_requests_app. simpl. now rewrite !app_nil_r.
Qed.

Lemma trigger_build_active_run (repository : string) (h : Host) :
  In repository (discovered h) ->
  probe h ("nix-build-" ++ repository) = true ->
  trigger_build repository h
  = (Return (BuildTriggerResponse.make already_running
               ("Build for " ++ repository ++ " already in progress")
               repository),
     record (systemctl_is_active ("nix-build-" ++ repository))
            (record systemctl_list_units h)).
Proof.
  intros Hin Hp. unfold trigger_build.
  rewrite (bind_run _ _ _ _ _ (get_available_repos_run h)).
  apply mem_In in Hin. rewrite Hin. change (negb true) with false. cbv iota.
  rewrite (bind_run _ _ _ _ _ (is_build_running_run repository _)).
  rewrite probe_record, Hp. reflexivity.
Qed.

Lemma trigger_build_unknown_run (repository : string) (h : Host) :
  ~ In repository (discovered h) ->
  trigger_build repository h
  = (Raise (HTTPException 404 ("Repository '" ++ repository ++ "' not found")),
     record systemctl_list_units h).
Proof.
  intros Hnot. apply mem_not_In in Hnot. unfold trigger_build.
  rewrite (bind_run _ _ _ _ _ (get_available_repos_run h)).
  now rewrite Hnot.
Qed.

(** X7.  One call of [trigger_build] issues a start request exactly when
    the repository is discovered and its probe answers idle, then exactly
    one, for the unit [nix-build-<repository>]; in every other case the list
    of start requests is left as it was. *)
Theorem trigger_build_start_requests (repository : string) (h : Host) :
  start_requests (invocations (snd (trigger_build repository h)))
  = start_requests (invocations h)
    ++ (if Py.mem repository (discovered h)
           && negb (probe h ("nix-build-" ++ repository))
        then [("nix-build-" ++ repository)%string] else []).
Proof.
  destruct (Py.mem repository (discovered h)) eqn:Hd.
  - apply mem_In in Hd.
    destruct (probe h ("nix-build-" ++ repository)) eqn:Hp.
    + rewrite (trigger_build_active_run _ _ Hd Hp). simpl.
      rewrite !start_requests_app. simpl. now rewrite !app_nil_r.
    + rewrite (trigger_build_idle_run _ _ Hd Hp). simpl.
      rewrite !start_requests_app. simpl. now rewrite !app_nil_r.
  - rewrite trigger_build_unknown_run.
    + simpl. rewrite !start_requests_app. simpl. now rewrite !app_nil_r.
    + intros Hin. apply mem_In in Hin. congruence.
Qed.

(** X8.  Every outcome of [trigger_build] is one of the four the handler
    spells out. *)
Lemma trigger_build_outcomes (repository : string) (h : Host) :
  fst (trigger_build repository h)
    = Raise (HTTPException 404 ("Repository '" ++ repository ++ "' not found"))
  \/ fst (trigger_build repository h)
    = Return (BuildTriggerResponse.make already_running
                ("Build for " ++ repository ++ " already in progress") repository)
  \/ fst (trigger_build repository h)
    = Return (BuildTriggerResponse.make triggered
                ("Build started for " ++ repository) repository)
  \/ exists err,
      fst (trigger_build repository h)
      = Raise (HTTPException 500 ("Build trigger failed: " ++ err)).
Proof.
  destruct (Py.mem repository (discovered h)) eqn:Hd.
  - apply mem_In in Hd.
    destruct (probe h ("nix-build-" ++ repository)) eqn:Hp.
    + right. left. now rewrite (trigger_build_active_run _ _ Hd Hp).
    + rewrite (trigger_build_idle_run _ _ Hd Hp). simpl.
      destruct (returncode _ =? 0)%Z; [right; right; left | do 3 right; eexists];
        reflexivity.
  - left. rewrite trigger_build_unknown_run; [reflexivity|].
    intros Hin. apply mem_In in Hin. congruence.
Qed.

(** ** More on status reconciliation *)

Lemma build_logs_unknown_run (repository : string) (lines : Z) (h : Host) :
  ~ In repository (discovered h) ->
  build_logs repository lines h
  = (Raise (HTTPException 404 ("Repository '" ++ repository ++ "' not found")),
     record systemctl_list_units h).
Proof.
  intros Hnot. apply mem_not_In in Hnot. unfold build_logs.
  rewrite (bind_run _ _ _ _ _ (get_available_repos_run h)).
  now rewrite Hnot.
Qed.

Section Merge.

Variable datetime : Type.
Variable json_loads : string -> option json.
Variable validate_bool : json -> option bool.
Variable validate_datetime : json -> option datetime.

Local Abbreviation get_status :=
  (get_build_status datetime json_loads validate_bool validate_datetime).
Local Abbreviation status :=
  (build_status datetime json_loads validate_bool validate_datetime).
Local Abbreviation init :=
  (BuildStatus_init datetime validate_bool validate_datetime).
Local Abbreviation unusable := (corrupt json_loads validate_bool validate_datetime).

(** The two ways [get_build_status] ends. *)
Lemma get_build_status_cases (repo : string) (h : Host) :
  (status_file h repo = Missing
   /\ get_status repo h = (Return (BuildStatus.fresh false repo), h))
  \/ (status_file h repo <> Missing
      /\ exists st,
           get_status repo h
           = (Return st, record (systemctl_is_active ("nix-build-" ++ repo)) h)
           /\ BuildStatus.is_running st = probe h ("nix-build-" ++ repo)).
Proof.
  destruct (status_file h repo) as [| |text] eqn:Hf.
  - left. split; [reflexivity|].
    now apply get_build_status_missing.
  - right. split; [discriminate|]. eexists. split.
    + apply get_build_status_unusable. now rewrite Hf.
    + reflexivity.
  - right. split; [discriminate|].
    destruct (json_loads text) as [data|] eqn:Hj.
    + destruct (init data) as [st|e] eqn:Hi.
      * eexists. split.
        -- apply (get_build_status_valid _ _ _ _ _ _ _ _ _ Hf Hj Hi).
        -- reflexivity.
      * eexists. split.
        -- apply get_build_status_unusable. unfold corrupt. now rewrite Hf, Hj, Hi.
        -- reflexivity.
    + eexists. split.
      * apply get_build_status_unusable. unfold corrupt. now rewrite Hf, Hj.
      * reflexivity.
Qed.

(** X10.  Whenever the status file exists -- valid, stale, carrying its own
    [is_running], unreadable or malformed -- the [is_running] that
    [get_build_status] returns is the answer of the live probe. *)
Theorem get_build_status_existing_is_running (repo : string) (h : Host) :
  status_file h repo <> Missing ->
  exists st running,
    fst (get_status repo h) = Return st
    /\ fst (is_build_running repo h) = Return running
    /\ BuildStatus.is_running st = running.
Proof.
  intros Hf. destruct (get_build_status_cases repo h) as [[Hm _]|[_ [st [E Hr]]]];
    [contradiction|].
  exists st, (probe h ("nix-build-" ++ repo)). rewrite E, is_build_running_run.
  auto.
Qed.

(** X11.  For a record that parses to a mapping and passes validation, every
    field but [is_running] of the returned status is what the record's key
    of that name validates to -- [repository] included, which is therefore
    the record's and not the requested identifier -- while [is_running] is
    the probe's answer. *)
Theorem get_build_status_keeps_history (repo text : string)
    (kw : list (string * json)) (valid : BuildStatus.t datetime) (h : Host) :
  status_file h repo = Holds text ->
  json_loads text = Some (JDict kw) ->
  init (JDict kw) = Return valid ->
  exists st,
    fst (get_status repo h) = Return st
    /\ BuildStatus.is_running st = probe h ("nix-build-" ++ repo)
    /\ optional validate_datetime "last_start" kw = Some (BuildStatus.last_start st)
    /\ optional validate_datetime "last_finish" kw = Some (BuildStatus.last_finish st)
    /\ optional validate_outcome "last_status" kw = Some (BuildStatus.last_status st)
    /\ optional validate_str "last_commit" kw = Some (BuildStatus.last_commit st)
    /\ dict_get "repository" kw = Some (JStr (BuildStatus.repository st)).
Proof.
  intros Hf Hj Hi.
  rewrite (get_build_status_valid _ _ _ _ _ _ _ _ _ Hf Hj Hi).
  eexists. split; [reflexivity|]. split; [reflexivity|].
  unfold BuildStatus_init in Hi.
  destruct (required validate_bool "is_running" kw); [|discriminate].
  destruct (optional validate_datetime "last_start" kw); [|discriminate].
  destruct (optional validate_datetime "last_finish" kw); [|discriminate].
  destruct (optional validate_outcome "last_status" kw); [|discriminate].
  destruct (optional validate_str "last_commit" kw); [|discriminate].
  unfold required in Hi.
  destruct (dict_get "repository" kw) as [v|]; [|discriminate].
  destruct v; try discriminate. simpl in Hi.
  injection Hi as <-. simpl. repeat split; reflexivity.
Qed.

(** X12.  A record that is a JSON object but lacks the key [is_running] or
    the key [repository] is rejected as a whole: the status returned has no
    history, whatever [last_start], [last_finish], [last_status] and
    [last_commit] the record holds. *)
Theorem get_build_status_requires_keys (repo text : string)
    (kw : list (string * json)) (h : Host) :
  status_file h repo = Holds text ->
  json_loads text = Some (JDict kw) ->
  dict_get "is_running" kw = None \/ dict_get "repository" kw = None ->
  get_status repo h
  = (Return (BuildStatus.make (probe h ("nix-build-" ++ repo))
               None None None None repo),
     record (systemctl_is_active ("nix-build-" ++ repo)) h).
Proof.
  intros Hf Hj Hk. apply get_build_status_unusable.
  unfold corrupt. rewrite Hf, Hj.
  destruct Hk as [Hk|Hk].
  - now rewrite (init_requires_is_running _ _ _ _ Hk).
  - now rewrite (init_requires_repository _ _ _ _ Hk).
Qed.

Lemma init_rejects_outcome (kw : list (string * json)) (v : json) :
  dict_get "last_status" kw = Some v ->
  v <> JNull ->
  validate_outcome v = None ->
  init (JDict kw) = Raise ValidationError.
Proof.
  intros Hk Hn Hv. unfold BuildStatus_init.
  assert (E : optional validate_outcome "last_status" kw = None).
  { unfold optional. rewrite Hk. destruct v; try (now rewrite Hv).
    contradiction. }
  rewrite E.
  destruct (required validate_bool "is_running" kw),
    (optional validate_datetime "last_start" kw),
    (optional validate_datetime "last_finish" kw); reflexivity.
Qed.

(** X13.  A record whose [last_status] is a string other than [success]
    and [failed] is rejected as a whole: the status returned has no history
    and [is_running] from the probe. *)
Theorem get_build_status_unknown_outcome (repo text s : string)
    (kw : list (string * json)) (h : Host) :
  status_file h repo = Holds text ->
  json_loads text = Some (JDict kw) ->
  dict_get "last_status" kw = Some (JStr s) ->
  s <> "success" ->
  s <> "failed" ->
  get_status repo h
  = (Return (BuildStatus.make (probe h ("nix-build-" ++ repo))
               None None None None repo),
     record (systemctl_is_active ("nix-build-" ++ repo)) h).
Proof.
  intros Hf Hj Hk Hs Hfd. apply get_build_status_unusable.
  unfold corrupt. rewrite Hf, Hj.
  rewrite (init_rejects_outcome kw (JStr s) Hk); [exact I|discriminate|].
  simpl. apply String.eqb_neq in Hs, Hfd. now rewrite Hs, Hfd.
Qed.

End Merge.

(** X15.  The read-only endpoints never ask the supervisor to start
    anything: after [build_status], [build_logs] or [health] the list of
    start requests is what it was. *)
Theorem read_only_endpoints_never_start (datetime : Type)
    (json_loads : string -> option json) (validate_bool : json -> option bool)
    (validate_datetime : json -> option datetime)
    (repository : string) (lines : Z) (h : Host) :
  start_requests
    (invocations (snd (build_status datetime json_loads validate_bool
                         validate_datetime repository h)))
  = start_requests (invocations h)
  /\ start_requests (invocations (snd (build_logs repository lines h)))
     = start_requests (invocations h)
  /\ start_requests (invocations (snd (health h)))
     = start_requests (invocations h).
Proof.
  assert (Hq : start_requests (invocations (record systemctl_list_units h))
               = start_requests (invocations h))
    by (simpl; rewrite start_requests_app; simpl; now rewrite app_nil_r).
  split; [|split].
  - destruct (Py.mem repository (discovered h)) eqn:Hd.
    + apply mem_In in Hd. rewrite (build_status_known _ _ _ _ _ _ Hd).
      destruct (get_build_status_cases datetime json_loads validate_bool
                  validate_datetime repository (record systemctl_list_units h))
        as [[_ E]|[_ [st [E _]]]]; rewrite E; simpl snd; [exact Hq|].
      simpl. rewrite !start_requests_app. simpl. now rewrite !app_nil_r.
    + unfold build_status.
      rewrite (bind_run _ _ _ _ _ (get_available_repos_run h)), Hd. exact Hq.
  - destruct (Py.mem repository (discovered h)) eqn:Hd.
    + apply mem_In in Hd.
      destruct (path_exists (log_file h repository)) eqn:Hl.
      * rewrite (build_logs_existing_run _ _ _ Hd Hl). cbn [snd invocations record].
        rewrite !start_requests_app. simpl. now rewrite !app_nil_r.
      * rewrite build_logs_missing_run; [exact Hq | exact Hd |].
        destruct (log_file h repository); [reflexivity | discriminate..].
    + rewrite build_logs_unknown_run; [exact Hq|].
      intros Hin. apply mem_In in Hin. congruence.
  - rewrite health_run. simpl.
    rewrite !start_requests_app. simpl. now rewrite !app_nil_r.
Qed.

(** ** More on log retrieval *)

(** X17.  Asked for zero lines of a log that is there, [build_logs]
    returns one piece, the empty string. *)
Theorem build_logs_zero_lines (repository : string) (h : Host)
    (repos : list string) :
  fst (get_available_repos h) = Return repos ->
  In repository repos ->
  path_exists (log_file h repository) = true ->
  fst (build_logs repository 0 h) = Return (BuildLogs.make [EmptyString]).
Proof.
  intros Hrepos Hin Hl.
  rewrite get_available_repos_run in Hrepos. simpl in Hrepos.
  injection Hrepos as <-.
  assert (E : stdout (tail (Z.min 0 10000) (log_file h repository)) = EmptyString).
  { destruct (log_file h repository) as [| |content];
      [discriminate | reflexivity |].
    change (stdout (tail (Z.min 0 10000) (Holds content)))
      with (String.concat "" (last_n 0 (keepends content))).
    unfold last_n. now rewrite Nat.sub_0_r, skipn_all. }
  rewrite (build_logs_existing_file _ _ _ Hin Hl) by now rewrite E.
  simpl fst. now rewrite E.
Qed.

(** X18.  For a log file that exists but cannot be read, [build_logs]
    returns one piece, the empty string, for every requested count. *)
Theorem build_logs_unreadable (repository : string) (lines : Z) (h : Host)
    (repos : list string) :
  fst (get_available_repos h) = Return repos ->
  In repository repos ->
  log_file h repository = Unreadable ->
  fst (build_logs repository lines h) = Return (BuildLogs.make [EmptyString]).
Proof.
  intros Hrepos Hin Hl.
  rewrite get_available_repos_run in Hrepos. simpl in Hrepos.
  injection Hrepos as <-.
  rewrite build_logs_existing_file;
    try assumption; rewrite Hl; try rewrite tail_unreadable; reflexivity.
Qed.

Lemma tail_whole (n : Z) (content : string) :
  (Z.abs n < 18446744073709551616)%Z ->
  List.length (keepends content) <= Z.to_nat (Z.abs n) ->
  stdout (tail n (Holds content)) = content.
Proof.
  intros Hn Hfit. rewrite (tail_holds _ _ Hn). cbn [stdout].
  now rewrite (last_n_all _ _ Hfit), concat_keepends.
Qed.

(** X19.  When the log is valid UTF-8 without carriage returns, has no more
    lines than the window and the count is above [- 2^64], [build_logs]
    returns the file's text split at line feeds. *)
Theorem build_logs_whole_file (repository : string) (lines : Z) (h : Host)
    (repos : list string) (content : string) :
  fst (get_available_repos h) = Return repos ->
  In repository repos ->
  log_file h repository = Holds content ->
  count Py.CR content = 0 ->
  Py.utf8_valid content = true ->
  (- 18446744073709551616 < lines)%Z ->
  List.length (keepends content) <= Z.to_nat (Z.abs (Z.min lines 10000)) ->
  fst (build_logs repository lines h)
  = Return (BuildLogs.make (Py.split Py.LF content)).
Proof.
  intros Hrepos Hin Hl Hcr Hv Hb Hfit.
  rewrite get_available_repos_run in Hrepos. simpl in Hrepos.
  injection Hrepos as <-.
  assert (E : stdout (tail (Z.min lines 10000) (log_file h repository)) = content)
    by (rewrite Hl; apply tail_whole; [lia | exact Hfit]).
  rewrite build_logs_existing_file;
    [ | assumption | now rewrite Hl | now rewrite E ].
  simpl fst. rewrite E. now rewrite (translate_newlines_plain _ Hcr).
Qed.

Lemma keepends_plain (l : string) :
  count Py.LF l = 0 -> l <> EmptyString -> keepends l = [l].
Proof.
  induction l as [|c l IH]; intros H Hne; [contradiction|].
  apply count_cons_zero in H as [Hc Hl]. simpl. rewrite Hc.
  destruct l as [|c' l']; [reflexivity|].
  rewrite IH; [reflexivity | exact Hl | discriminate].
Qed.

Lemma keepends_terminated_app (ls : list string) (rest : string) :
  Forall (fun l => count Py.LF l = 0) ls ->
  keepends (newline_terminated ls ++ rest)
  = map (fun l => (l ++ Py.nl)%string) ls ++ keepends rest.
Proof.
  intros Hls. induction Hls as [|l ls Hl _ IH]; [reflexivity|].
  change (newline_terminated (l :: ls))
    with (l ++ Py.nl ++ newline_terminated ls)%string.
  rewrite !append_assoc, (keepends_line _ _ Hl), IH. reflexivity.
Qed.

(** X20.  A log that is valid UTF-8, whose last line lacks its terminator
    and that fits in the window of a count above [- 2^64], is returned as
    exactly its lines, in order, with no empty string at the end. *)
Theorem build_logs_unterminated_last_line (repository : string) (lines : Z)
    (h : Host) (repos ls : list string) (last : string) :
  fst (get_available_repos h) = Return repos ->
  In repository repos ->
  Forall plain ls ->
  plain last ->
  last <> EmptyString ->
  Py.utf8_valid (newline_terminated ls ++ last) = true ->
  log_file h repository = Holds (newline_terminated ls ++ last) ->
  (- 18446744073709551616 < lines)%Z ->
  List.length ls + 1 <= Z.to_nat (Z.abs (Z.min lines 10000)) ->
  fst (build_logs repository lines h) = Return (BuildLogs.make (ls ++ [last])).
Proof.
  intros Hrepos Hin Hls [Hlf Hcr] Hne Hv Hl Hb Hfit.
  rewrite get_available_repos_run in Hrepos. simpl in Hrepos.
  injection Hrepos as <-.
  assert (Hlfs : Forall (fun l => count Py.LF l = 0) ls)
    by (eapply Forall_impl; [|exact Hls]; now intros l [H _]).
  assert (Hcrs : Forall (fun l => count Py.CR l = 0) ls)
    by (eapply Forall_impl; [|exact Hls]; now intros l [_ H]).
  assert (E : stdout (tail (Z.min lines 10000) (log_file h repository))
              = (newline_terminated ls ++ last)%string).
  { rewrite Hl. apply tail_whole; [lia|].
    rewrite (keepends_terminated_app _ _ Hlfs), (keepends_plain _ Hlf Hne).
    rewrite length_app, length_map. simpl. lia. }
  rewrite build_logs_existing_file;
    [ | assumption | now rewrite Hl | now rewrite E ].
  simpl fst. rewrite E, translate_newlines_plain.
  - now rewrite split_newline_terminated.
  - rewrite count_app, count_newline_terminated by exact Hcrs.
    simpl. exact Hcr.
Qed.

(** X24.  When the log fits in the window of a count above [- 2^64] and is
    not valid UTF-8, [build_logs] raises [UnicodeDecodeError]: decoding what
    [tail] printed fails, and nothing in the handler catches it. *)
Theorem build_logs_undecodable_log (repository : string) (lines : Z) (h : Host)
    (repos : list string) (content : string) :
  fst (get_available_repos h) = Return repos ->
  In repository repos ->
  log_file h repository = Holds content ->
  Py.utf8_valid content = false ->
  (- 18446744073709551616 < lines)%Z ->
  List.length (keepends content) <= Z.to_nat (Z.abs (Z.min lines 10000)) ->
  fst (build_logs repository lines h) = Raise UnicodeDecodeError.
Proof.
  intros Hrepos Hin Hl Hv Hb Hfit.
  rewrite get_available_repos_run in Hrepos. simpl in Hrepos.
  injection Hrepos as <-.
  assert (E : stdout (tail (Z.min lines 10000) (log_file h repository)) = content)
    by (rewrite Hl; apply tail_whole; [lia | exact Hfit]).
  rewrite build_logs_existing_run; [ | assumption | now rewrite Hl ].
  now rewrite E, Hv.
Qed.

(** ** What the probes accept *)

Lemma lstrip_spaces (a t : string) :
  all_space a = true -> Py.lstrip (a ++ t) = Py.lstrip t.
Proof.
  induction a as [|c a IH]; simpl; [reflexivity|].
  intros H. apply andb_true_iff in H as [Hc Ha]. rewrite Hc. now apply IH.
Qed.

Lemma rstrip_all_space (b : string) :
  all_space b = true -> Py.rstrip b = EmptyString.
Proof.
  induction b as [|c b IH]; simpl; [reflexivity|].
  intros H. apply andb_true_iff in H as [Hc Hb]. now rewrite (IH Hb), Hc.
Qed.

Lemma rstrip_spaces (s b : string) :
  all_space b = true -> Py.rstrip (s ++ b) = Py.rstrip s.
Proof.
  intros Hb. induction s as [|c s IH]; simpl.
  - now apply rstrip_all_space.
  - now rewrite IH.
Qed.

Lemma lstrip_decompose (s : string) :
  exists a, all_space a = true /\ s = (a ++ Py.lstrip s)%string.
Proof.
  induction s as [|c s [a [Ha E]]]; [now exists EmptyString|].
  simpl. destruct (Py.isspace c) eqn:Hc.
  - exists (String c a). simpl. rewrite Hc, Ha. split; [reflexivity|].
    now rewrite <- E.
  - now exists EmptyString.
Qed.

Lemma rstrip_decompose (s : string) :
  exists b, all_space b = true /\ s = (Py.rstrip s ++ b)%string.
Proof.
  induction s as [|c s [b [Hb E]]]; [now exists EmptyString|].
  simpl. destruct (Py.isspace c && String.eqb (Py.rstrip s) EmptyString) eqn:Hc.
  - apply andb_true_iff in Hc as [Hc Hr]. apply String.eqb_eq in Hr.
    rewrite Hr in E. simpl in E. subst s.
    exists (String c b). simpl. now rewrite Hc, Hb.
  - exists b. split; [exact Hb|]. simpl. now rewrite <- E.
Qed.

Lemma strip_active (s : string) :
  Py.strip s = "active"
  <-> exists a b,
        all_space a = true /\ all_space b = true
        /\ s = (a ++ "active" ++ b)%string.
Proof.
  unfold Py.strip. split.
  - intros H. destruct (lstrip_decompose s) as [a [Ha Es]].
    destruct (rstrip_decompose (Py.lstrip s)) as [b [Hb Et]].
    rewrite H in Et. exists a, b. rewrite <- Et. auto.
  - intros [a [b [Ha [Hb ->]]]].
    rewrite (lstrip_spaces _ _ Ha).
    change (Py.lstrip ("active" ++ b)) with ("active" ++ b)%string.
    now rewrite (rstrip_spaces _ _ Hb).
Qed.

(** X22.  When [systemctl is-active] prints ASCII text, [is_build_running]
    and [is_cache_running] answer true exactly when the decoded output is
    the word [active] with nothing but whitespace before and after it; any
    other ASCII output -- empty, [inactive], [activating], [failed] --
    counts as not running. *)
Theorem probes_accept_exactly_active (h : Host) (repo : string) :
  ascii_only (stdout (is_active h ("nix-build-" ++ repo))) = true ->
  ascii_only (stdout (is_active h "harmonia")) = true ->
  (fst (is_build_running repo h) = Return true
   <-> exists a b,
         all_space a = true /\ all_space b = true
         /\ Py.translate_newlines (stdout (is_active h ("nix-build-" ++ repo)))
            = (a ++ "active" ++ b)%string)
  /\ (fst (is_cache_running h) = Return true
      <-> exists a b,
            all_space a = true /\ all_space b = true
            /\ Py.translate_newlines (stdout (is_active h "harmonia"))
               = (a ++ "active" ++ b)%string).
Proof.
  intros _ _.
  rewrite is_build_running_run, is_cache_running_run. unfold probe. cbn [fst].
  split; (split;
    [ intros E; injection E as E; apply String.eqb_eq in E;
      now apply strip_active
    | intros H; apply strip_active in H; f_equal; now apply String.eqb_eq ]).
Qed.

(** ** Discovery is the same for every endpoint *)

(** X23.  The identifiers [health] lists are exactly those the unit
    endpoints accept on the same host: [build_status], [trigger_build] and
    [build_logs] each answer 404 for an identifier if and only if it is
    absent from the [repositories] of the health report. *)
Theorem health_lists_accepted_units (datetime : Type)
    (json_loads : string -> option json) (validate_bool : json -> option bool)
    (validate_datetime : json -> option datetime)
    (repository : string) (lines : Z) (h : Host) (v : HealthCheck.t) :
  fst (health h) = Return v ->
  let not_found := HTTPException 404 ("Repository '" ++ repository ++ "' not found") in
  (fst (build_status datetime json_loads validate_bool validate_datetime
          repository h) = Raise not_found
   <-> ~ In repository (HealthCheck.repositories v))
  /\ (fst (trigger_build repository h) = Raise not_found
      <-> ~ In repository (HealthCheck.repositories v))
  /\ (fst (build_logs repository lines h) = Raise not_found
      <-> ~ In repository (HealthCheck.repositories v)).
Proof.
  intros Hv not_found. rewrite health_run in Hv. simpl in Hv.
  injection Hv as <-. simpl HealthCheck.repositories.
  destruct (Py.mem repository (discovered h)) eqn:Hd.
  - apply mem_In in Hd.
    assert (Hiff : forall P : Prop, ~ P -> (P <-> ~ In repository (discovered h)))
      by (intros P HP; split; [intros HP'; contradiction | intros Hn; contradiction]).
    split; [|split]; apply Hiff.
    + rewrite (build_status_known _ _ _ _ _ _ Hd).
      destruct (get_build_status_returns datetime json_loads validate_bool
                  validate_datetime repository (record systemctl_list_units h))
        as [st E].
      rewrite E. discriminate.
    + destruct (probe h ("nix-build-" ++ repository)) eqn:Hp.
      * rewrite (trigger_build_active_run _ _ Hd Hp). discriminate.
      * rewrite (trigger_build_idle_run _ _ Hd Hp). simpl.
        destruct (returncode _ =? 0)%Z; [discriminate|].
        intros E. injection E as E _. discriminate.
    + destruct (path_exists (log_file h repository)) eqn:Hl.
      * rewrite (build_logs_existing_run _ _ _ Hd Hl). cbn [fst].
        destruct (Py.utf8_valid _); discriminate.
      * rewrite build_logs_missing_run; [discriminate | exact Hd |].
        destruct (log_file h repository); [reflexivity | discriminate..].
  - assert (Hn : ~ In repository (discovered h))
      by (intros Hin; apply mem_In in Hin; congruence).
    destruct (handlers_not_found datetime json_loads validate_bool
                validate_datetime repository lines h Hn) as [Hs [Ht Hl]].
    repeat split; auto.
Qed.

(** ** A unit line and the name discovered from it *)

Lemma prefix_self_app (a t : string) : String.prefix a (a ++ t) = true.
Proof.
  induction a as [|c a IH]; simpl; [now destruct t|].
  destruct (ascii_dec c c); [exact IH | contradiction].
Qed.

Lemma replace_from_skip (a old new t : string) :
  Py.replace_from (String.length a) old new (a ++ t)
  = Py.replace_from 0 old new t.
Proof. induction a as [|c a IH]; [reflexivity | exact IH]. Qed.

(** An occurrence at the front is replaced and skipped. *)
Lemma replace_from_match (o : ascii) (old' new t : string) :
  Py.replace_from 0 (String o old') new (String o old' ++ t)
  = (new ++ Py.replace_from 0 (String o old') new t)%string.
Proof.
  change ((String o old' ++ t)%string) with (String o (old' ++ t)).
  cbn [Py.replace_from].
  change (String o (old' ++ t)) with ((String o old' ++ t)%string).
  rewrite prefix_self_app.
  replace (String.length (String o old') - 1) with (String.length old')
    by (simpl; lia).
  now rewrite replace_from_skip.
Qed.

(** A stretch without the first character of [old] is copied. *)
Lemma replace_from_copy (o : ascii) (old' new a t : string) :
  count o a = 0 ->
  Py.replace_from 0 (String o old') new (a ++ t)
  = (a ++ Py.replace_from 0 (String o old') new t)%string.
Proof.
  induction a as [|c a IH]; intros H; [reflexivity|].
  apply count_cons_zero in H as [Hc Ha].
  change ((String c a ++ t)%string) with (String c (a ++ t)).
  cbn [Py.replace_from String.prefix].
  destruct (ascii_dec o c) as [->|_].
  - rewrite Ascii.eqb_refl in Hc. discriminate.
  - now rewrite (IH Ha).
Qed.

(** A string that does not contain [old] is left as it is. *)
Lemma replace_from_not_contained (o : ascii) (old' new s : string) :
  Py.contains (String o old') s = false ->
  Py.replace_from 0 (String o old') new s = s.
Proof.
  induction s as [|c s IH]; intros H; [reflexivity|].
  rewrite contains_cons in H. apply orb_false_iff in H as [Hp Hc].
  cbn [Py.replace_from]. rewrite Hp. now rewrite (IH Hc).
Qed.

Lemma split_ws_pad (pad s : string) :
  all_space pad = true -> Py.split_ws (pad ++ s) = Py.split_ws s.
Proof.
  induction pad as [|c pad IH]; simpl; [reflexivity|].
  intros H. apply andb_true_iff in H as [Hc Hp]. rewrite Hc. now apply IH.
Qed.

Lemma split_ws_step (a a' : ascii) (r : string) :
  Py.isspace a = false ->
  Py.isspace a' = false ->
  Py.split_ws (String a (String a' r))
  = match Py.split_ws (String a' r) with
    | w :: ws => String a w :: ws
    | [] => [String a EmptyString]
    end.
Proof.
  intros Ha Ha'.
  change (Py.split_ws (String a (String a' r)))
    with (if Py.isspace a then Py.split_ws (String a' r)
          else if Py.isspace a' then String a EmptyString :: Py.split_ws (String a' r)
               else match Py.split_ws (String a' r) with
                    | w :: ws => String a w :: ws
                    | [] => [String a EmptyString]
                    end).
  now rewrite Ha, Ha'.
Qed.

Lemma split_ws_word (w : string) (c : ascii) (t : string) :
  w <> EmptyString ->
  no_space w = true ->
  Py.isspace c = true ->
  Py.split_ws (w ++ String c t) = w :: Py.split_ws t.
Proof.
  intros Hne Hw Hc. induction w as [|a w IH]; [contradiction|].
  simpl in Hw. apply andb_true_iff in Hw as [Ha Hw].
  apply negb_true_iff in Ha.
  destruct w as [|a' w'].
  - simpl. now rewrite Ha, Hc.
  - pose proof Hw as Hw'. simpl in Hw'.
    apply andb_true_iff in Hw' as [Ha' _]. apply negb_true_iff in Ha'.
    change ((String a (String a' w') ++ String c t)%string)
      with (String a (String a' (w' ++ String c t))).
    rewrite (split_ws_step _ _ _ Ha Ha').
    change (String a' (w' ++ String c t))
      with ((String a' w' ++ String c t)%string).
    now rewrite (IH ltac:(discriminate) Hw).
Qed.

Lemma no_space_app (s t : string) :
  no_space (s ++ t) = no_space s && no_space t.
Proof.
  induction s as [|c s IH]; simpl; [reflexivity|].
  now rewrite IH, andb_assoc.
Qed.

Lemma unit_name_of_service (name : string) :
  count "."%char name = 0 ->
  Py.contains "nix-build-" name = false ->
  Py.replace "nix-build-" ""
    (Py.replace ".service" "" ("nix-build-" ++ name ++ ".service"))
  = name.
Proof.
  intros Hdot Hpre. unfold Py.replace.
  assert (E1 : Py.replace_from 0 ".service" "" ("nix-build-" ++ name ++ ".service")
               = ("nix-build-" ++ name)%string).
  { rewrite <- append_assoc, replace_from_copy.
    - change (Py.replace_from 0 ".service" "" ".service") with EmptyString.
      now rewrite append_empty_r.
    - rewrite count_app, Hdot. reflexivity. }
  rewrite E1, replace_from_match. simpl append.
  now apply replace_from_not_contained.
Qed.

(** X4.  A listing line made of optional leading ASCII whitespace, the unit
    name [nix-build-<name>.service], an ASCII whitespace character and
    further columns makes [name] a discovered repository, provided [name] is
    ASCII text with no whitespace, no dot and no [nix-build-] inside. *)
Theorem service_line_discovered (h : Host) (repos : list string)
    (pad name rest : string) (c : ascii) :
  fst (get_available_repos h) = Return repos ->
  In (pad ++ ("nix-build-" ++ name ++ ".service") ++ String c rest)%string
     (Py.split Py.LF (Py.translate_newlines (stdout (list_units h)))) ->
  all_space pad = true ->
  Py.isspace c = true ->
  ascii_only name = true ->
  no_space name = true ->
  count "."%char name = 0 ->
  Py.contains "nix-build-" name = false ->
  In name repos.
Proof.
  intros Hrepos Hline Hpad Hc _ Hname Hdot Hpre.
  rewrite get_available_repos_run in Hrepos. simpl in Hrepos.
  injection Hrepos as <-.
  unfold discovered, parse_units. apply sorted_set_In, in_flat_map.
  eexists. split; [exact Hline|].
  unfold repo_of_line.
  assert (Hcont : Py.contains "nix-build-"
                    (pad ++ ("nix-build-" ++ name ++ ".service") ++ String c rest)
                  = true).
  { apply contains_app_l, contains_app_r.
    change (("nix-build-" ++ name ++ ".service")%string)
      with (String "n" ("ix-build-" ++ name ++ ".service")).
    rewrite contains_cons.
    change (String "n" ("ix-build-" ++ name ++ ".service"))
      with (("nix-build-" ++ (name ++ ".service"))%string).
    now rewrite prefix_self_app. }
  rewrite Hcont, (split_ws_pad _ _ Hpad), split_ws_word.
  - left. now apply unit_name_of_service.
  - discriminate.
  - rewrite !no_space_app, Hname. reflexivity.
  - exact Hc.
Qed.

(** ** The further properties at work on the sample hosts *)

Lemma no_build_units_all_not_found_witness :
  fst (get_available_repos Sample.host_silent) = Return []
  /\ forall (repository : string) (lines : Z),
       let detail := ("Repository '" ++ repository ++ "' not found")%string in
       fst (build_status string Sample.json_loads Sample.validate_bool
              Sample.validate_datetime repository Sample.host_silent)
         = Raise (HTTPException 404 detail)
       /\ fst (trigger_build repository Sample.host_silent)
          = Raise (HTTPException 404 detail)
       /\ fst (build_logs repository lines Sample.host_silent)
          = Raise (HTTPException 404 detail).
Proof.
  apply (no_build_units_all_not_found string Sample.json_loads
           Sample.validate_bool Sample.validate_datetime Sample.host_silent).
  vm_compute. reflexivity.
Defined.

Lemma get_available_repos_members_witness :
  (exists repos,
      fst (get_available_repos Sample.host) = Return repos /\ In "alpha" repos)
  <->
  (exists line first rest,
      In line (Py.split Py.LF
                 (Py.translate_newlines (stdout (list_units Sample.host))))
      /\ Py.contains "nix-build-" line = true
      /\ Py.split_ws line = first :: rest
      /\ "alpha" = Py.replace "nix-build-" "" (Py.replace ".service" "" first)).
Proof.
  apply (get_available_repos_members Sample.host "alpha").
  vm_compute. reflexivity.
Defined.

Lemma service_line_discovered_witness :
  In "alpha" ["alpha"; "beta"; "delta"; "gamma"].
Proof.
  apply (service_line_discovered Sample.host ["alpha"; "beta"; "delta"; "gamma"]
           "" "alpha" "loaded inactive dead Build alpha" " "%char).
  - vm_compute. reflexivity.
  - vm_compute. auto.
  - reflexivity.
  - reflexivity.
  - reflexivity.
  - reflexivity.
  - reflexivity.
  - reflexivity.
Defined.

Lemma probes_accept_exactly_active_witness :
  (fst (is_build_running "beta" Sample.host) = Return true
   <-> exists a b,
         all_space a = true /\ all_space b = true
         /\ Py.translate_newlines (stdout (is_active Sample.host ("nix-build-" ++ "beta")))
            = (a ++ "active" ++ b)%string)
  /\ (fst (is_cache_running Sample.host) = Return true
      <-> exists a b,
            all_space a = true /\ all_space b = true
            /\ Py.translate_newlines (stdout (is_active Sample.host "harmonia"))
               = (a ++ "active" ++ b)%string).
Proof.
  apply (probes_accept_exactly_active Sample.host "beta").
  - vm_compute. reflexivity.
  - vm_compute. reflexivity.
Defined.

Lemma trigger_build_idle_started_witness :
  fst (trigger_build "alpha" Sample.host)
    = Return (BuildTriggerResponse.make triggered "Build started for alpha" "alpha")
  /\ start_requests (invocations (snd (trigger_build "alpha" Sample.host)))
     = start_requests (invocations Sample.host) ++ ["nix-build-alpha"].
Proof.
  apply (trigger_build_idle_started "alpha" Sample.host
           ["alpha"; "beta"; "delta"; "gamma"]).
  - vm_compute. reflexivity.
  - simpl. auto.
  - vm_compute. reflexivity.
  - reflexivity.
Defined.

Lemma trigger_build_idle_start_refused_witness :
  fst (trigger_build "gamma" Sample.host)
    = Raise (HTTPException 500
               ("Build trigger failed: "
                ++ Py.translate_newlines
                     (stderr (start Sample.host "nix-build-gamma"))))
  /\ start_requests (invocations (snd (trigger_build "gamma" Sample.host)))
     = start_requests (invocations Sample.host) ++ ["nix-build-gamma"].
Proof.
  apply (trigger_build_idle_start_refused "gamma" Sample.host
           ["alpha"; "beta"; "delta"; "gamma"]).
  - vm_compute. reflexivity.
  - simpl. auto.
  - vm_compute. reflexivity.
  - vm_compute. discriminate.
Defined.

Lemma get_build_status_existing_is_running_witness :
  exists st running,
    fst (get_build_status string Sample.json_loads Sample.validate_bool
           Sample.validate_datetime "delta" Sample.host) = Return st
    /\ fst (is_build_running "delta" Sample.host) = Return running
    /\ BuildStatus.is_running st = running.
Proof.
  apply (get_build_status_existing_is_running string Sample.json_loads
           Sample.validate_bool Sample.validate_datetime "delta" Sample.host).
  vm_compute. discriminate.
Defined.

Lemma get_build_status_keeps_history_witness :
  exists st,
    fst (get_build_status string Sample.json_loads Sample.validate_bool
           Sample.validate_datetime "alpha" Sample.host) = Return st
    /\ BuildStatus.is_running st = probe Sample.host "nix-build-alpha"
    /\ optional Sample.validate_datetime "last_start"
         [("is_running", JBool false);
          ("last_finish", JStr "2024-01-01T00:00:00");
          ("last_status", JStr "success");
          ("repository", JStr "alpha")] = Some (BuildStatus.last_start st)
    /\ optional Sample.validate_datetime "last_finish"
         [("is_running", JBool false);
          ("last_finish", JStr "2024-01-01T00:00:00");
          ("last_status", JStr "success");
          ("repository", JStr "alpha")] = Some (BuildStatus.last_finish st)
    /\ optional validate_outcome "last_status"
         [("is_running", JBool false);
          ("last_finish", JStr "2024-01-01T00:00:00");
          ("last_status", JStr "success");
          ("repository", JStr "alpha")] = Some (BuildStatus.last_status st)
    /\ optional validate_str "last_commit"
         [("is_running", JBool false);
          ("last_finish", JStr "2024-01-01T00:00:00");
          ("last_status", JStr "success");
          ("repository", JStr "alpha")] = Some (BuildStatus.last_commit st)
    /\ dict_get "repository"
         [("is_running", JBool false);
          ("last_finish", JStr "2024-01-01T00:00:00");
          ("last_status", JStr "success");
          ("repository", JStr "alpha")] = Some (JStr (BuildStatus.repository st)).
Proof.
  apply (get_build_status_keeps_history string Sample.json_loads
           Sample.validate_bool Sample.validate_datetime "alpha"
           Sample.alpha_text _
           (BuildStatus.make false None (Some "2024-01-01T00:00:00")
              (Some success) None "alpha")
           Sample.host).
  - vm_compute. reflexivity.
  - vm_compute. reflexivity.
  - vm_compute. reflexivity.
Defined.

Lemma get_build_status_requires_keys_witness :
  get_build_status string Sample.json_loads Sample.validate_bool
    Sample.validate_datetime "alpha" Sample.host_records
  = (Return (BuildStatus.make (probe Sample.host_records "nix-build-alpha")
               None None None None "alpha"),
     record (systemctl_is_active "nix-build-alpha") Sample.host_records).
Proof.
  apply (get_build_status_requires_keys string Sample.json_loads
           Sample.validate_bool Sample.validate_datetime "alpha" "{}" []
           Sample.host_records).
  - vm_compute. reflexivity.
  - vm_compute. reflexivity.
  - left. reflexivity.
Defined.

Lemma get_build_status_unknown_outcome_witness :
  get_build_status string Sample.json_loads_more Sample.validate_bool
    Sample.validate_datetime "gamma" Sample.host_records
  = (Return (BuildStatus.make (probe Sample.host_records "nix-build-gamma")
               None None None None "gamma"),
     record (systemctl_is_active "nix-build-gamma") Sample.host_records).
Proof.
  apply (get_build_status_unknown_outcome string Sample.json_loads_more
           Sample.validate_bool Sample.validate_datetime "gamma"
           Sample.unknown_text "unknown"
           [("is_running", JBool false); ("last_status", JStr "unknown");
            ("repository", JStr "gamma")]
           Sample.host_records).
  - vm_compute. reflexivity.
  - vm_compute. reflexivity.
  - reflexivity.
  - discriminate.
  - discriminate.
Defined.

Lemma build_logs_zero_lines_witness :
  fst (build_logs "gamma" 0 Sample.host) = Return (BuildLogs.make [EmptyString]).
Proof.
  apply (build_logs_zero_lines "gamma" Sample.host
           ["alpha"; "beta"; "delta"; "gamma"]).
  - vm_compute. reflexivity.
  - simpl. auto.
  - vm_compute. reflexivity.
Defined.

Lemma build_logs_unreadable_witness :
  fst (build_logs "gamma" 100 Sample.host_logs)
  = Return (BuildLogs.make [EmptyString]).
Proof.
  apply (build_logs_unreadable "gamma" 100%Z Sample.host_logs
           ["alpha"; "beta"; "delta"; "gamma"]).
  - vm_compute. reflexivity.
  - simpl. auto.
  - vm_compute. reflexivity.
Defined.

Lemma build_logs_whole_file_witness :
  fst (build_logs "gamma" 100 Sample.host)
  = Return (BuildLogs.make
              (Py.split Py.LF (newline_terminated ["one"; "two"; "three"]))).
Proof.
  apply (build_logs_whole_file "gamma" 100%Z Sample.host
           ["alpha"; "beta"; "delta"; "gamma"]).
  - vm_compute. reflexivity.
  - simpl. auto.
  - vm_compute. reflexivity.
  - vm_compute. reflexivity.
  - vm_compute. reflexivity.
  - lia.
  - vm_compute. lia.
Defined.

Lemma build_logs_unterminated_last_line_witness :
  fst (build_logs "alpha" 100 Sample.host_logs)
  = Return (BuildLogs.make (["one"] ++ ["two"])).
Proof.
  apply (build_logs_unterminated_last_line "alpha" 100%Z Sample.host_logs
           ["alpha"; "beta"; "delta"; "gamma"] ["one"] "two").
  - vm_compute. reflexivity.
  - simpl. auto.
  - repeat constructor.
  - split; reflexivity.
  - discriminate.
  - vm_compute. reflexivity.
  - vm_compute. reflexivity.
  - lia.
  - vm_compute. lia.
Defined.

Lemma build_logs_undecodable_log_witness :
  fst (build_logs "gamma" 100 Sample.host_bad_log) = Raise UnicodeDecodeError.
Proof.
  apply (build_logs_undecodable_log "gamma" 100%Z Sample.host_bad_log
           ["alpha"; "beta"; "delta"; "gamma"]
           (newline_terminated
              ["ok"; String (ascii_of_nat 255)
                       (String (ascii_of_nat 254) EmptyString)])).
  - vm_compute. reflexivity.
  - simpl. auto.
  - vm_compute. reflexivity.
  - vm_compute. reflexivity.
  - lia.
  - vm_compute. lia.
Defined.

Lemma build_logs_negative_count_witness :
  fst (build_logs "gamma" (-2) Sample.host)
  = Return (BuildLogs.make
              (last_n (Z.to_nat (- (-2))) ["one"; "two"; "three"] ++ [EmptyString])).
Proof.
  apply (build_logs_negative_count "gamma" (-2)%Z Sample.host
           ["one"; "two"; "three"]).
  - lia.
  - vm_compute. auto.
  - repeat constructor.
  - vm_compute. reflexivity.
  - vm_compute. reflexivity.
Defined.

Lemma health_lists_accepted_units_witness :
  let not_found := HTTPException 404 "Repository 'zeta' not found" in
  let listed := ["alpha"; "beta"; "delta"; "gamma"] in
  (fst (build_status string Sample.json_loads Sample.validate_bool
          Sample.validate_datetime "zeta" Sample.host) = Raise not_found
   <-> ~ In "zeta" listed)
  /\ (fst (trigger_build "zeta" Sample.host) = Raise not_found
      <-> ~ In "zeta" listed)
  /\ (fst (build_logs "zeta" 100 Sample.host) = Raise not_found
      <-> ~ In "zeta" listed).
Proof.
  apply (health_lists_accepted_units string Sample.json_loads
           Sample.validate_bool Sample.validate_datetime "zeta" 100%Z
           Sample.host
           (HealthCheck.make healthy true ["alpha"; "beta"; "delta"; "gamma"])).
  vm_compute. reflexivity.
Defined.
